(** * hw_python_oop: the fitness tracker of [homework.py]

    A shallow embedding of [homework.py] and the properties of its
    calculation hierarchy, its dispatcher and its message formatter.

    Python numbers are modelled as they are at run time: an [int] is an
    unbounded integer, a [float] is an IEEE 754 binary64 value (Rocq's
    primitive floats), and the arithmetic operators coerce and raise as
    CPython's do.  Exceptions are values of an error monad. *)

From Stdlib Require Import ZArith String Ascii Floats.
From Stdlib Require Import DecimalString DecimalN DecimalPos.
From stdpp Require Import base option list gmap strings.

Set Warnings "-inexact-float".

#[local] Open Scope Z_scope.

(** ** Exceptions and the error monad *)

Inductive exn : Type :=
| KeyError
| TypeError
| AttributeError
| ZeroDivisionError
| OverflowError
| NotImplementedError.

Inductive result (A : Type) : Type :=
| Ok (a : A)
| Raise (e : exn).

Arguments Ok {A} a.
Arguments Raise {A} e.

#[global] Instance result_ret : MRet result := @Ok.

#[global] Instance result_bind : MBind result :=
  fun A B (f : A -> result B) (m : result A) =>
    match m with
    | Ok a => f a
    | Raise e => Raise e
    end.

(** [returns m] holds when the call finished without an exception. *)
Definition returns {A : Type} (m : result A) : bool :=
  match m with
  | Ok _ => true
  | Raise _ => false
  end.

(** ** Python numbers *)

Module PyNum.

Inductive pynum : Type :=
| PyInt (z : Z)
| PyFloat (f : float).

(** [float(z)]: the correctly rounded (half-even) binary64 value of an
    integer; [infinity] stands for a value out of range. *)
Definition of_int (z : Z) : float :=
  SF2Prim (binary_normalize prec emax z 0 false).

(** CPython's CONVERT_TO_DOUBLE: a float is itself, an int goes through
    PyLong_AsDouble, which raises OverflowError (int too large to convert
    to float) when the rounded value does not fit. *)
Definition to_float (v : pynum) : result float :=
  match v with
  | PyFloat f => Ok f
  | PyInt z =>
      let f := of_int z in
      if is_infinity f then Raise OverflowError else Ok f
  end.

(** float_mul, float_add: both operands converted, IEEE operation, no
    check of the result. *)
Definition float_mul (v w : pynum) : result pynum :=
  a ← to_float v; b ← to_float w; Ok (PyFloat (a * b)%float).

Definition float_add (v w : pynum) : result pynum :=
  a ← to_float v; b ← to_float w; Ok (PyFloat (a + b)%float).

(** float_div: ZeroDivisionError on a zero divisor (either sign). *)
Definition float_div (v w : pynum) : result pynum :=
  a ← to_float v; b ← to_float w;
  if (b =? 0)%float then Raise ZeroDivisionError
  else Ok (PyFloat (a / b)%float).

Definition int_sf (z : Z) : spec_float :=
  match z with
  | Z0 => S754_zero false
  | Zpos p => S754_finite false p 0
  | Zneg p => S754_finite true p 0
  end.

(** long_true_divide: the correctly rounded quotient of two ints. *)
Definition long_true_divide (a b : Z) : result pynum :=
  if b =? 0 then Raise ZeroDivisionError
  else
    let q := SF2Prim (SFdiv prec emax (int_sf a) (int_sf b)) in
    if is_infinity q then Raise OverflowError else Ok (PyFloat q).

(** The binary operators [*], [+] and [/]: two ints stay exact (or take
    the int true division), anything else is a float operation. *)
Definition py_mul (v w : pynum) : result pynum :=
  match v, w with
  | PyInt a, PyInt b => Ok (PyInt (a * b))
  | _, _ => float_mul v w
  end.

Definition py_add (v w : pynum) : result pynum :=
  match v, w with
  | PyInt a, PyInt b => Ok (PyInt (a + b))
  | _, _ => float_add v w
  end.

Definition py_truediv (v w : pynum) : result pynum :=
  match v, w with
  | PyInt a, PyInt b => long_true_divide a b
  | _, _ => float_div v w
  end.

Section Pow.

(** The C library's [pow], which float_pow calls once the special cases
    are sorted out.  Its errno is read as CPython's _Py_ADJUST_ERANGE1
    leaves it: a range error exactly when the result is infinite. *)
Variable c_pow : float -> float -> float.

(** DOUBLE_IS_ODD_INTEGER of [float(n)]: above 2^53 every float is an
    even integer. *)
Definition odd_exponent (n : Z) : bool :=
  Z.odd n && (Z.abs n <? 2 ^ 53).

(** float_pow with an int as right operand, [iw = float(n)]: [iw] is
    neither NaN nor infinite nor fractional, which leaves these cases
    of floatobject.c. *)
Definition float_pow (v : pynum) (n : Z) : result pynum :=
  iv ← to_float v; iw ← to_float (PyInt n);
  if (iw =? 0)%float then Ok (PyFloat 1)
  else if is_nan iv then Ok (PyFloat iv)
  else if is_infinity iv then
    if (0 <? iw)%float
    then Ok (PyFloat (if odd_exponent n then iv else abs iv))
    else Ok (PyFloat (if odd_exponent n && (iv <? 0)%float
                      then neg_zero else 0))
  else if (iv =? 0)%float then
    if (iw <? 0)%float then Raise ZeroDivisionError
    else Ok (PyFloat (if odd_exponent n then iv else 0))
  else
    let negate_result := (iv <? 0)%float && odd_exponent n in
    let iv := if (iv <? 0)%float then (- iv)%float else iv in
    if (iv =? 1)%float
    then Ok (PyFloat (if negate_result then (-1)%float else 1))
    else
      let ix := c_pow iv iw in
      if is_infinity ix then Raise OverflowError
      else Ok (PyFloat (if negate_result then (- ix)%float else ix)).

(** The operator [**] with an int exponent: int ** non-negative int is
    exact, everything else is float_pow. *)
Definition py_pow (v : pynum) (n : Z) : result pynum :=
  match v with
  | PyInt a => if 0 <=? n then Ok (PyInt (a ^ n)) else float_pow v n
  | PyFloat _ => float_pow v n
  end.

End Pow.

End PyNum.

Export PyNum.

(** ** The class hierarchy *)

Inductive class : Type :=
| Training
| Running
| SportsWalking
| Swimming.

#[global] Instance class_eq_dec : EqDecision class.
Proof. solve_decision. Defined.

(** [__name__] of a class. *)
Definition class_name (c : class) : string :=
  match c with
  | Training => "Training"
  | Running => "Running"
  | SportsWalking => "SportsWalking"
  | Swimming => "Swimming"
  end.

(** The names of the class-level constants. *)
Inductive attr : Type :=
| H_IN_M
| M_IN_KM
| LEN_STEP
| CALORIES_MEAN_SPEED_MULTIPLIER
| CALORIES_MEAN_SPEED_SHIFT
| COEF_WEIGHT
| MEAN_SPEED_IN_2_AND_HEIGHT
| KM_PER_H_IN_M_IN_S
| SM_IN_M
| MEAN_SPEED_MOVE
| SPEED_MULTIPLIER.

(** What each class body itself declares ([cls.__dict__]). *)
Definition class_dict (c : class) (a : attr) : option float :=
  match c, a with
  | Training, H_IN_M => Some 60.0%float
  | Training, M_IN_KM => Some 1000.0%float
  | Training, LEN_STEP => Some 0.65%float
  | Running, CALORIES_MEAN_SPEED_MULTIPLIER => Some 18.0%float
  | Running, CALORIES_MEAN_SPEED_SHIFT => Some 1.79%float
  | SportsWalking, COEF_WEIGHT => Some 0.035%float
  | SportsWalking, MEAN_SPEED_IN_2_AND_HEIGHT => Some 0.029%float
  | SportsWalking, KM_PER_H_IN_M_IN_S => Some 0.278%float
  | SportsWalking, SM_IN_M => Some 100.0%float
  | Swimming, LEN_STEP => Some 1.38%float
  | Swimming, MEAN_SPEED_MOVE => Some 1.1%float
  | Swimming, SPEED_MULTIPLIER => Some 2.0%float
  | _, _ => None
  end.

(** Method resolution order: the class, then its base [Training]. *)
Definition mro (c : class) : list class :=
  match c with
  | Training => [Training]
  | _ => [c; Training]
  end.

Fixpoint lookup_mro (cs : list class) (a : attr) : result pynum :=
  match cs with
  | [] => Raise AttributeError
  | c :: cs' =>
      match class_dict c a with
      | Some f => Ok (PyFloat f)
      | None => lookup_mro cs' a
      end
  end.

(** ** Instances *)

(** An instance carries its class and the attributes its [__init__]
    assigned.  [Training.__init__] is inherited by [Running]. *)
Inductive instance : Type :=
| Training_obj (action duration weight : pynum)
| Running_obj (action duration weight : pynum)
| SportsWalking_obj (action duration weight height : pynum)
| Swimming_obj (action duration weight length_pool count_pool : pynum).

Definition class_of (self : instance) : class :=
  match self with
  | Training_obj _ _ _ => Training
  | Running_obj _ _ _ => Running
  | SportsWalking_obj _ _ _ _ => SportsWalking
  | Swimming_obj _ _ _ _ _ => Swimming
  end.

Definition action (self : instance) : pynum :=
  match self with
  | Training_obj a _ _ | Running_obj a _ _
  | SportsWalking_obj a _ _ _ | Swimming_obj a _ _ _ _ => a
  end.

Definition duration_h (self : instance) : pynum :=
  match self with
  | Training_obj _ d _ | Running_obj _ d _
  | SportsWalking_obj _ d _ _ | Swimming_obj _ d _ _ _ => d
  end.

Definition weight_kg (self : instance) : pynum :=
  match self with
  | Training_obj _ _ w | Running_obj _ _ w
  | SportsWalking_obj _ _ w _ | Swimming_obj _ _ w _ _ => w
  end.

Definition height_sm (self : instance) : result pynum :=
  match self with
  | SportsWalking_obj _ _ _ h => Ok h
  | _ => Raise AttributeError
  end.

Definition length_pool_m (self : instance) : result pynum :=
  match self with
  | Swimming_obj _ _ _ l _ => Ok l
  | _ => Raise AttributeError
  end.

Definition count_pool (self : instance) : result pynum :=
  match self with
  | Swimming_obj _ _ _ _ c => Ok c
  | _ => Raise AttributeError
  end.

(** [self.NAME] for a class constant: no instance ever shadows one, so
    the lookup goes through the classes of the instance's MRO. *)
Definition getattr (self : instance) (a : attr) : result pynum :=
  lookup_mro (mro (class_of self)) a.

(** Calling a class: [__init__] binds the positional arguments, and a
    wrong count is a TypeError. *)
Definition construct (c : class) (data : list pynum) : result instance :=
  match c, data with
  | Training, [a; d; w] => Ok (Training_obj a d w)
  | Running, [a; d; w] => Ok (Running_obj a d w)
  | SportsWalking, [a; d; w; h] => Ok (SportsWalking_obj a d w h)
  | Swimming, [a; d; w; l; n] => Ok (Swimming_obj a d w l n)
  | _, _ => Raise TypeError
  end.

(** The number of positional arguments [__init__] takes besides [self]. *)
Definition arity (c : class) : nat :=
  match c with
  | Training | Running => 3
  | SportsWalking => 4
  | Swimming => 5
  end.

(** ** Methods *)

(** [InfoMessage], a dataclass: five fields and the template, whose
    default is the class-level string. *)
Inductive numfield : Type :=
| Duration
| Distance
| Speed
| Calories.

(** The template is held parsed: literal text, the replacement field
    [{training_type}], or a numeric field under the spec [.3f].  These
    pieces spell the class-level default of [message] exactly; a string
    that a caller passes for [message] with another field name or
    another spec (on which [str.format] raises KeyError or ValueError)
    has no counterpart here. *)
Inductive piece : Type :=
| Lit (s : string)
| TypeField
| Num3 (field : numfield).

Record InfoMessage : Type := mkInfoMessage {
  training_type : string;
  duration : pynum;
  distance : pynum;
  speed : pynum;
  calories : pynum;
  message : list piece
}.

Section Methods.

Variable c_pow : float -> float -> float.

(** Training.get_distance *)
Definition Training_get_distance (self : instance) : result pynum :=
  len ← getattr self LEN_STEP;
  steps ← py_mul (action self) len;
  m ← getattr self M_IN_KM;
  py_truediv steps m.

(** No subclass overrides [get_distance]. *)
Definition get_distance (self : instance) : result pynum :=
  Training_get_distance self.

(** Training.get_mean_speed *)
Definition Training_get_mean_speed (self : instance) : result pynum :=
  dist ← get_distance self;
  py_truediv dist (duration_h self).

(** Swimming.get_mean_speed *)
Definition Swimming_get_mean_speed (self : instance) : result pynum :=
  l ← length_pool_m self;
  n ← count_pool self;
  covered ← py_mul l n;
  m ← getattr self M_IN_KM;
  km ← py_truediv covered m;
  py_truediv km (duration_h self).

Definition get_mean_speed (self : instance) : result pynum :=
  match class_of self with
  | Swimming => Swimming_get_mean_speed self
  | _ => Training_get_mean_speed self
  end.

(** Training.get_spent_calories *)
Definition Training_get_spent_calories (self : instance) : result pynum :=
  Raise NotImplementedError.

(** Running.get_spent_calories *)
Definition Running_get_spent_calories (self : instance) : result pynum :=
  h ← getattr self H_IN_M;
  minutes ← py_mul (duration_h self) h;
  k ← getattr self CALORIES_MEAN_SPEED_MULTIPLIER;
  v ← get_mean_speed self;
  kv ← py_mul k v;
  shift ← getattr self CALORIES_MEAN_SPEED_SHIFT;
  s ← py_add kv shift;
  sw ← py_mul s (weight_kg self);
  m ← getattr self M_IN_KM;
  q ← py_truediv sw m;
  py_mul q minutes.

(** SportsWalking.get_spent_calories *)
Definition SportsWalking_get_spent_calories (self : instance)
  : result pynum :=
  h ← getattr self H_IN_M;
  minutes ← py_mul (duration_h self) h;
  height ← height_sm self;
  sm ← getattr self SM_IN_M;
  height_in_metres ← py_truediv height sm;
  cw ← getattr self COEF_WEIGHT;
  base ← py_mul cw (weight_kg self);
  v ← get_mean_speed self;
  ms ← getattr self KM_PER_H_IN_M_IN_S;
  v_ms ← py_mul v ms;
  sq ← py_pow c_pow v_ms 2;
  ratio ← py_truediv sq height_in_metres;
  k ← getattr self MEAN_SPEED_IN_2_AND_HEIGHT;
  rk ← py_mul ratio k;
  rkw ← py_mul rk (weight_kg self);
  total ← py_add base rkw;
  py_mul total minutes.

(** Swimming.get_spent_calories *)
Definition Swimming_get_spent_calories (self : instance) : result pynum :=
  v ← get_mean_speed self;
  move ← getattr self MEAN_SPEED_MOVE;
  s ← py_add v move;
  k ← getattr self SPEED_MULTIPLIER;
  sk ← py_mul s k;
  skw ← py_mul sk (weight_kg self);
  py_mul skw (duration_h self).

Definition get_spent_calories (self : instance) : result pynum :=
  match class_of self with
  | Training => Training_get_spent_calories self
  | Running => Running_get_spent_calories self
  | SportsWalking => SportsWalking_get_spent_calories self
  | Swimming => Swimming_get_spent_calories self
  end.

End Methods.

(** ** InfoMessage and its formatting *)

(** [format(x, '.3f')] of a float: the exact binary value rounded
    half-even to thousandths; [inf] and [nan] are spelled out. *)
Definition round_half_even (n d : Z) : Z :=
  let q := n / d in
  let r := n mod d in
  if d <? 2 * r then q + 1
  else if 2 * r =? d then (if Z.even q then q else q + 1)
  else q.

Definition thousandths (m : positive) (e : Z) : Z :=
  if 0 <=? e then Z.pos m * 2 ^ e * 1000
  else round_half_even (Z.pos m * 1000) (2 ^ (- e)).

Definition digit (d : Z) : ascii :=
  match d with
  | 0 => "0" | 1 => "1" | 2 => "2" | 3 => "3" | 4 => "4"
  | 5 => "5" | 6 => "6" | 7 => "7" | 8 => "8" | _ => "9"
  end%char.

Definition render (neg : bool) (q : Z) : string :=
  ((if neg then "-" else "")
   ++ NilZero.string_of_uint (N.to_uint (Z.to_N (q / 1000)))
   ++ String "."
        (String (digit (q / 100 mod 10))
           (String (digit (q / 10 mod 10))
              (String (digit (q mod 10)) ""))))%string.

Definition fixed3 (f : float) : string :=
  match Prim2SF f with
  | S754_nan => "nan"
  | S754_infinity s => if s then "-inf" else "inf"
  | S754_zero s => render s 0
  | S754_finite s m e => render s (thousandths m e)
  end.

(** An int is converted first (and may not fit). *)
Definition format_3f (v : pynum) : result string :=
  f ← to_float v; Ok (fixed3 f).

(** The replacement fields of the template, [asdict] supplying the value
    of each. *)
Definition field_value (self : InfoMessage) (p : piece) : result string :=
  match p with
  | Lit s => Ok s
  | TypeField => Ok (training_type self)
  | Num3 Duration => format_3f (duration self)
  | Num3 Distance => format_3f (distance self)
  | Num3 Speed => format_3f (speed self)
  | Num3 Calories => format_3f (calories self)
  end.

Fixpoint format (self : InfoMessage) (template : list piece)
  : result string :=
  match template with
  | [] => Ok ""%string
  | p :: rest =>
      s ← field_value self p;
      tail ← format self rest;
      Ok (s ++ tail)%string
  end.

(** InfoMessage.get_message *)
Definition get_message (self : InfoMessage) : result string :=
  format self (message self).

(** The class-level default of the field [message]. *)
Definition default_message : list piece :=
  [ Lit "Тип тренировки: "; TypeField;
    Lit "; Длительность: "; Num3 Duration;
    Lit " ч.; Дистанция: "; Num3 Distance;
    Lit " км; Ср. скорость: "; Num3 Speed;
    Lit " км/ч; Потрачено ккал: "; Num3 Calories;
    Lit "." ].

(** [InfoMessage(training_type, duration, distance, speed, calories)]. *)
Definition InfoMessage_init (t : string) (d dist v c : pynum)
  : InfoMessage :=
  mkInfoMessage t d dist v c default_message.

Section Program.

Variable c_pow : float -> float -> float.

(** Training.show_training_info *)
Definition show_training_info (self : instance) : result InfoMessage :=
  dist ← get_distance self;
  v ← get_mean_speed self;
  c ← get_spent_calories c_pow self;
  Ok (InfoMessage_init (class_name (class_of self))
        (duration_h self) dist v c).

(** [print] appends a line to the standard output. *)
Definition stdout : Type := list string.

Definition trainings : gmap string class :=
  <["SWM" := Swimming]> (<["RUN" := Running]>
    (<["WLK" := SportsWalking]> ∅)).

Definition subscript (d : gmap string class) (key : string)
  : result class :=
  match d !! key with
  | Some c => Ok c
  | None => Raise KeyError
  end.

(** read_package: the [try] body builds an instance and drops it, the
    [else] clause builds it again and returns it; a handled exception
    prints its line and falls off the end of the function ([None]). *)
Definition read_package (workout_type : string) (data : list pynum)
  : stdout * result (option instance) :=
  let call := c ← subscript trainings workout_type; construct c data in
  match call with
  | Raise KeyError =>
      (["Ошибка KeyError: не верно задан тип тренировки"%string], Ok None)
  | Raise TypeError =>
      (["Ошибка TypeError: ошибка переданных данных"%string], Ok None)
  | Raise e => ([], Raise e)
  | Ok _ => ([], t ← call; Ok (Some t))
  end.

(** main *)
Definition main (training : instance) : result stdout :=
  info ← show_training_info training;
  line ← get_message info;
  Ok [line].

(** The loop under [if __name__ == '__main__']. *)
Fixpoint run (packages : list (string * list pynum)) : result stdout :=
  match packages with
  | [] => Ok []
  | (workout_type, data) :: rest =>
      let '(printed, r) := read_package workout_type data in
      training ← r;
      shown ← match training with
              | Some t => main t
              | None => Ok []
              end;
      later ← run rest;
      Ok (printed ++ shown ++ later)
  end.

End Program.

(** ** Vocabulary of the properties *)

(** Python expressions over results: an operator evaluates its left
    operand, then its right operand, then applies itself; the first
    exception raised is the outcome. *)
Definition lift2 (op : pynum -> pynum -> result pynum)
  (x y : result pynum) : result pynum :=
  a ← x; b ← y; op a b.

Definition flt (f : float) : result pynum := Ok (PyFloat f).

Definition squared (c_pow : float -> float -> float) (x : result pynum)
  : result pynum :=
  a ← x; py_pow c_pow a 2.

Declare Scope py_scope.
Delimit Scope py_scope with py.
Notation "x * y" := (lift2 py_mul x y) : py_scope.
Notation "x / y" := (lift2 py_truediv x y) : py_scope.
Notation "x + y" := (lift2 py_add x y) : py_scope.

(** [v != 0], read on the value the division sees. *)
Definition py_nonzero (v : pynum) : bool :=
  match to_float v with
  | Ok y => negb (y =? 0)%float
  | Raise _ => true
  end.

(** A float, or an int that [float()] accepts. *)
Definition convertible (v : pynum) : bool := returns (to_float v).

(** A stand-in for the C library's [pow] on which the examples run: the
    correctly rounded square at the exponent 2, the only exponent the
    program uses. *)
Definition square_pow (x y : float) : float :=
  if (y =? 2)%float then (x * x)%float else nan.

(** The positional arguments an instance was built from. *)
Definition args_of (self : instance) : list pynum :=
  match self with
  | Training_obj a d w | Running_obj a d w => [a; d; w]
  | SportsWalking_obj a d w h => [a; d; w; h]
  | Swimming_obj a d w l n => [a; d; w; l; n]
  end.

(** The dispatch table as the specification words it: the variant and
    the number of payload fields each code requires. *)
Definition variant_of_code (code : string) : option (class * nat) :=
  if decide (code = "RUN") then Some (Running, 3%nat)
  else if decide (code = "WLK") then Some (SportsWalking, 4%nat)
  else if decide (code = "SWM") then Some (Swimming, 5%nat)
  else None.

(** The summary line, field by field. *)
Definition summary (kind d dist v c : string) : string :=
  ("Тип тренировки: " ++ kind
   ++ "; Длительность: " ++ d
   ++ " ч.; Дистанция: " ++ dist
   ++ " км; Ср. скорость: " ++ v
   ++ " км/ч; Потрачено ккал: " ++ c ++ ".")%string.

(** Neither infinite nor NaN. *)
Definition finite (f : float) : bool :=
  match Prim2SF f with
  | S754_zero _ | S754_finite _ _ _ => true
  | S754_infinity _ | S754_nan => false
  end.

Definition finite_num (v : pynum) : bool :=
  match to_float v with
  | Ok f => finite f
  | Raise _ => false
  end.

(** A rendering with exactly three decimal digits: an optional sign, at
    least one digit, a point, three digits. *)
Definition is_digit (c : ascii) : bool :=
  (48 <=? nat_of_ascii c)%nat && (nat_of_ascii c <=? 57)%nat.

Fixpoint all_digits (s : string) : bool :=
  match s with
  | EmptyString => true
  | String c s' => is_digit c && all_digits s'
  end.

Fixpoint split_point (s : string) : option (string * string) :=
  match s with
  | EmptyString => None
  | String c s' =>
      if Ascii.eqb c "." then Some (EmptyString, s')
      else
        match split_point s' with
        | Some (i, f) => Some (String c i, f)
        | None => None
        end
  end.

Definition unsigned (s : string) : string :=
  match s with
  | String c s' => if Ascii.eqb c "-" then s' else s
  | EmptyString => s
  end.

Definition three_decimals (s : string) : bool :=
  match split_point (unsigned s) with
  | Some (i, f) =>
      negb (String.eqb i "") && all_digits i
      && all_digits f && (String.length f =? 3)%nat
  | None => false
  end.

(** What must hold of an instance for its arithmetic not to raise. *)
Definition fields_convert (self : instance) : bool :=
  match self with
  | Training_obj a d w | Running_obj a d w =>
      convertible a && convertible d && convertible w
  | SportsWalking_obj a d w h =>
      convertible a && convertible d && convertible w && convertible h
  | Swimming_obj a d w l n =>
      convertible a && convertible d && convertible w
      && returns (p ← py_mul l n; to_float p)
  end.

(** For SportsWalking: the height in metres is not zero and the square of
    the speed in m/s fits a float. *)
Definition walking_guard (c_pow : float -> float -> float)
  (self : instance) : bool :=
  match self with
  | SportsWalking_obj _ _ _ h =>
      match py_truediv h (PyFloat 100) with
      | Ok metres => py_nonzero metres
      | Raise _ => false
      end
      && returns (squared c_pow (get_mean_speed self * flt 0.278)%py)
  | _ => true
  end.

(** The packages of the script. *)
Definition packages : list (string * list pynum) :=
  [ ("SWM"%string, [PyInt 720; PyInt 1; PyInt 80; PyInt 25; PyInt 40]);
    ("RUN"%string, [PyInt 15000; PyInt 1; PyInt 75]);
    ("WLK"%string, [PyInt 9000; PyInt 1; PyInt 75; PyInt 180]) ].

(** The outcomes the arithmetic of a concrete class can have: a float,
    or one of the two exceptions of float arithmetic. *)
Inductive numeric_outcome : result pynum -> Prop :=
| returns_float (f : float) : numeric_outcome (Ok (PyFloat f))
| raises_overflow : numeric_outcome (Raise OverflowError)
| raises_zero_division : numeric_outcome (Raise ZeroDivisionError).

(** The key under which the dictionary of [read_package] holds a class;
    the base class has none. *)
Definition workout_code (c : class) : option string :=
  match c with
  | Training => None
  | Running => Some "RUN"%string
  | SportsWalking => Some "WLK"%string
  | Swimming => Some "SWM"%string
  end.

(** [v == 0], read on the value the division sees. *)
Definition py_zero (v : pynum) : bool :=
  match to_float v with
  | Ok y => (y =? 0)%float
  | Raise _ => false
  end.

(** The two lines [read_package] can print. *)
Definition key_error_line : string :=
  "Ошибка KeyError: не верно задан тип тренировки".

Definition type_error_line : string :=
  "Ошибка TypeError: ошибка переданных данных".

(** How [.3f] shows a number: with exactly three decimal digits when
    it is finite, as one of three words otherwise. *)
Definition rendered (v : pynum) (s : string) : Prop :=
  if finite_num v then three_decimals s = true
  else three_decimals s = false
       /\ (s = "inf" \/ s = "-inf" \/ s = "nan")%string.

(** The line one package leaves on the output: the line of the error
    [read_package] printed for it, or the line [main] printed for the
    instance [read_package] returned. *)
Definition package_line (c_pow : float -> float -> float)
  (p : string * list pynum) (line : string) : Prop :=
  ((line = key_error_line \/ line = type_error_line)
   /\ read_package p.1 p.2 = ([line], Ok None))
  \/ (exists t, read_package p.1 p.2 = ([], Ok (Some t))
                /\ main c_pow t = Ok [line]).

(** Reading a rendering back: the sign, and the number of thousandths
    its decimal digits spell. *)
Definition digit_value (c : ascii) : Z := Z.of_nat (nat_of_ascii c) - 48.

Definition read_fixed3 (s : string) : option (bool * Z) :=
  match split_point (unsigned s) with
  | Some (i, String a (String b (String c EmptyString))) =>
      match NilZero.uint_of_string i with
      | Some u =>
          Some (match s with
                | String x _ => Ascii.eqb x "-"
                | EmptyString => false
                end,
                Z.of_N (N.of_uint u) * 1000 + digit_value a * 100
                + digit_value b * 10 + digit_value c)
      | None => None
      end
  | _ => None
  end.

(** ** Examples: the script's own packages *)

Example script_output :
  run square_pow packages =
  Ok [ "Тип тренировки: Swimming; Длительность: 1.000 ч.; Дистанция: 0.994 км; Ср. скорость: 1.000 км/ч; Потрачено ккал: 336.000.";
       "Тип тренировки: Running; Длительность: 1.000 ч.; Дистанция: 9.750 км; Ср. скорость: 9.750 км/ч; Потрачено ккал: 797.805.";
       "Тип тренировки: SportsWalking; Длительность: 1.000 ч.; Дистанция: 5.850 км; Ср. скорость: 5.850 км/ч; Потрачено ккал: 349.252."
     ]%string.
Proof. vm_compute. reflexivity. Qed.

Example unknown_code_prints :
  read_package "XYZ" [PyInt 1; PyInt 2; PyInt 3] =
  (["Ошибка KeyError: не верно задан тип тренировки"%string], Ok None).
Proof. vm_compute. reflexivity. Qed.

Example short_payload_prints :
  read_package "RUN" [PyInt 1; PyInt 2] =
  (["Ошибка TypeError: ошибка переданных данных"%string], Ok None).
Proof. vm_compute. reflexivity. Qed.

Example half_even_rounding :
  fixed3 0.125 = "0.125"%string /\ fixed3 0.0625 = "0.062"%string
  /\ fixed3 0.1875 = "0.188"%string /\ fixed3 (-0.0001) = "-0.000"%string.
Proof. vm_compute. repeat split. Qed.

(** ** The arithmetic operators next to a float *)

#[global] Arguments to_float : simpl never.

Lemma bind_Ok {A B : Type} (f : A -> result B) (a : A) :
  (Ok a ≫= f) = f a.
Proof. reflexivity. Qed.

Lemma bind_Raise {A B : Type} (f : A -> result B) (e : exn) :
  (Raise e ≫= f) = Raise e.
Proof. reflexivity. Qed.

Lemma to_float_raises (v : pynum) (e : exn) :
  to_float v = Raise e -> e = OverflowError.
Proof.
  destruct v as [z|f]; unfold to_float; [|discriminate].
  destruct (is_infinity (of_int z)); congruence.
Qed.

Lemma to_float_float (f : float) : to_float (PyFloat f) = Ok f.
Proof. reflexivity. Qed.

Lemma py_mul_int (a b : Z) : py_mul (PyInt a) (PyInt b) = Ok (PyInt (a * b)).
Proof. reflexivity. Qed.

Lemma py_mul_float_r (v : pynum) (f : float) :
  py_mul v (PyFloat f) = (a ← to_float v; Ok (PyFloat (a * f)%float)).
Proof. destruct v; reflexivity. Qed.

Lemma py_mul_float_l (f : float) (w : pynum) :
  py_mul (PyFloat f) w = (b ← to_float w; Ok (PyFloat (f * b)%float)).
Proof. reflexivity. Qed.

Lemma py_add_float_r (v : pynum) (f : float) :
  py_add v (PyFloat f) = (a ← to_float v; Ok (PyFloat (a + f)%float)).
Proof. destruct v; reflexivity. Qed.

Lemma py_add_float_l (f : float) (w : pynum) :
  py_add (PyFloat f) w = (b ← to_float w; Ok (PyFloat (f + b)%float)).
Proof. reflexivity. Qed.

Lemma py_truediv_float_r (v : pynum) (f : float) :
  py_truediv v (PyFloat f) =
  (a ← to_float v;
   if (f =? 0)%float then Raise ZeroDivisionError
   else Ok (PyFloat (a / f)%float)).
Proof. destruct v; reflexivity. Qed.

Lemma py_truediv_float_l (f : float) (w : pynum) :
  py_truediv (PyFloat f) w =
  (b ← to_float w;
   if (b =? 0)%float then Raise ZeroDivisionError
   else Ok (PyFloat (f / b)%float)).
Proof. reflexivity. Qed.

Create Rewrite HintDb pyops.
#[global] Hint Rewrite py_mul_float_r py_mul_float_l py_add_float_r
  py_add_float_l py_truediv_float_r py_truediv_float_l
  py_mul_int to_float_float @bind_Ok @bind_Raise : pyops.

(** A field either converts or overflows. *)
Lemma to_float_cases (v : pynum) :
  (exists y, to_float v = Ok y) \/ to_float v = Raise OverflowError.
Proof.
  destruct (to_float v) as [y|e] eqn:E; [left; eauto|right].
  apply to_float_raises in E. congruence.
Qed.

Lemma py_nonzero_Ok (v : pynum) (y : float) :
  py_nonzero v = true -> to_float v = Ok y -> (y =? 0)%float = false.
Proof.
  unfold py_nonzero. intros H E. rewrite E in H.
  destruct (y =? 0)%float; [discriminate|reflexivity].
Qed.

(** ** Distance *)

Lemma get_distance_eq (self : instance) (len : float) :
  getattr self LEN_STEP = Ok (PyFloat len) ->
  get_distance self =
  (x ← to_float (action self); Ok (PyFloat (x * len / 1000)%float)).
Proof.
  intros E. unfold get_distance, Training_get_distance. rewrite E.
  autorewrite with pyops.
  assert (getattr self M_IN_KM = Ok (PyFloat 1000)) as ->
    by (destruct self; reflexivity).
  destruct (to_float (action self)); reflexivity.
Qed.

(** C1: [get_distance] of a Running or SportsWalking instance is
    [action * 0.65 / 1000.0], and of a Swimming instance
    [action * 1.38 / 1000.0]: the action count times the step length the
    class resolves to, divided by the metres in a kilometre.  Spelled out
    on floats: the converted action count, one multiplication, one
    division that cannot fail. *)
Theorem get_distance_formula (a d w h l n : pynum) :
  (get_distance (Running_obj a d w) = (Ok a * flt 0.65 / flt 1000.0)%py
   /\ get_distance (SportsWalking_obj a d w h)
      = (Ok a * flt 0.65 / flt 1000.0)%py
   /\ get_distance (Swimming_obj a d w l n)
      = (Ok a * flt 1.38 / flt 1000.0)%py)
  /\ (get_distance (Running_obj a d w)
      = (x ← to_float a; Ok (PyFloat (x * 0.65 / 1000.0)%float))
     /\ get_distance (SportsWalking_obj a d w h)
        = (x ← to_float a; Ok (PyFloat (x * 0.65 / 1000.0)%float))
     /\ get_distance (Swimming_obj a d w l n)
        = (x ← to_float a; Ok (PyFloat (x * 1.38 / 1000.0)%float))).
Proof.
  split; [repeat split|repeat split; apply get_distance_eq; reflexivity].
Qed.

(** ** Mean speed *)

(** Case analysis on the conversions an outcome is stuck on. *)
Ltac split_conversions :=
  repeat match goal with
    | |- context [to_float ?v] =>
        let y := fresh "y" in
        let E := fresh "E" in
        destruct (to_float_cases v) as [[y E]|E];
        rewrite ?E in *; autorewrite with pyops in *
    end.

Lemma Training_get_mean_speed_eq (self : instance) :
  Training_get_mean_speed self =
  (get_distance self / Ok (duration_h self))%py.
Proof.
  unfold Training_get_mean_speed, lift2.
  destruct (get_distance self); reflexivity.
Qed.

Lemma Swimming_get_mean_speed_eq (a d w l n : pynum) :
  Swimming_get_mean_speed (Swimming_obj a d w l n) =
  ((Ok l * Ok n / flt 1000.0) / Ok d)%py.
Proof.
  unfold Swimming_get_mean_speed, lift2, flt. simpl.
  destruct (py_mul l n) as [p|e]; simpl; [|reflexivity].
  destruct (py_truediv p (PyFloat 1000)); reflexivity.
Qed.

(** A quotient by a non-zero divisor is not a ZeroDivisionError. *)
Lemma float_quotient_defined (f : float) (d : pynum) :
  py_nonzero d = true ->
  py_truediv (PyFloat f) d <> Raise ZeroDivisionError.
Proof.
  intros Hd. rewrite py_truediv_float_l.
  destruct (to_float_cases d) as [[y E]|E]; rewrite E; simpl;
    [|discriminate].
  rewrite (py_nonzero_Ok d y Hd E). discriminate.
Qed.

Lemma get_distance_outcome (self : instance) :
  (exists x, get_distance self = Ok (PyFloat x))
  \/ get_distance self = Raise OverflowError.
Proof.
  assert (exists len, getattr self LEN_STEP = Ok (PyFloat len)) as [len E]
    by (destruct self; eexists; reflexivity).
  rewrite (get_distance_eq self len E).
  destruct (to_float_cases (action self)) as [[y Ey]|Ey]; rewrite Ey; simpl;
    eauto.
Qed.

Lemma kilometres_outcome (l n : pynum) :
  (exists x, (Ok l * Ok n / flt 1000.0)%py = Ok (PyFloat x))
  \/ (Ok l * Ok n / flt 1000.0)%py = Raise OverflowError.
Proof.
  unfold lift2, flt. simpl.
  destruct l as [zl|fl], n as [zn|fn]; simpl;
    unfold float_mul, float_div; autorewrite with pyops;
    split_conversions; autorewrite with pyops; simpl; eauto.
Qed.

Lemma get_mean_speed_no_zero_division (self : instance) :
  py_nonzero (duration_h self) = true ->
  get_mean_speed self <> Raise ZeroDivisionError.
Proof.
  intros Hd.
  destruct self as [a d w|a d w|a d w h|a d w l n];
    unfold get_mean_speed; simpl class_of; cbv iota;
    try (rewrite Training_get_mean_speed_eq; unfold lift2;
         match goal with
         | |- context [get_distance ?s] =>
             destruct (get_distance_outcome s) as [[x E]|E]; rewrite E; simpl
         end;
         [apply float_quotient_defined; exact Hd|discriminate]).
  rewrite Swimming_get_mean_speed_eq.
  unfold lift2 at 1.
  destruct (kilometres_outcome l n) as [[x E]|E]; rewrite E; simpl;
    [apply float_quotient_defined; exact Hd|discriminate].
Qed.

(** C2: with a non-zero duration, [get_mean_speed] of a Running or
    SportsWalking instance is [get_distance() / duration], and of a
    Swimming instance [(length_pool * count_pool / 1000.0) / duration],
    which does not use [get_distance]: it is the same for every action
    count.  The division by the duration is defined. *)
Theorem get_mean_speed_formula (self : instance) :
  py_nonzero (duration_h self) = true ->
  match self with
  | Swimming_obj a d w l n =>
      get_mean_speed self = ((Ok l * Ok n / flt 1000.0) / Ok d)%py
      /\ forall a', get_mean_speed (Swimming_obj a' d w l n)
                    = get_mean_speed self
  | _ =>
      get_mean_speed self = (get_distance self / Ok (duration_h self))%py
  end
  /\ get_mean_speed self <> Raise ZeroDivisionError.
Proof.
  intros Hd. split; [|apply get_mean_speed_no_zero_division; exact Hd].
  destruct self as [a d w|a d w|a d w h|a d w l n];
    try apply Training_get_mean_speed_eq.
  split; [apply Swimming_get_mean_speed_eq|reflexivity].
Qed.

Lemma get_mean_speed_formula_witness :
  py_nonzero (PyInt 1) = true
  /\ get_mean_speed (Swimming_obj (PyInt 720) (PyInt 1) (PyInt 80)
                       (PyInt 25) (PyInt 40)) = Ok (PyFloat 1)
  /\ get_mean_speed (Running_obj (PyInt 15000) (PyInt 1) (PyInt 75))
     = Ok (PyFloat 9.75).
Proof.
  split; [reflexivity|]. split.
  - destruct (get_mean_speed_formula
                (Swimming_obj (PyInt 720) (PyInt 1) (PyInt 80)
                   (PyInt 25) (PyInt 40)) eq_refl) as [[-> _] _].
    vm_compute. reflexivity.
  - destruct (get_mean_speed_formula
                (Running_obj (PyInt 15000) (PyInt 1) (PyInt 75)) eq_refl)
      as [-> _].
    vm_compute. reflexivity.
Defined.

(** ** Calories *)

#[global] Arguments py_pow : simpl never.

Lemma to_float_two : to_float (PyInt 2) = Ok 2%float.
Proof. reflexivity. Qed.

(** Squaring a float gives a float or overflows. *)
Lemma py_pow_outcome (c_pow : float -> float -> float) (x : float) :
  (exists y, py_pow c_pow (PyFloat x) 2 = Ok (PyFloat y))
  \/ py_pow c_pow (PyFloat x) 2 = Raise OverflowError.
Proof.
  unfold py_pow, float_pow. rewrite to_float_float, to_float_two. simpl.
  repeat match goal with
         | |- context [if ?b then _ else _] => destruct b
         end; eauto.
Qed.

(** Unfolds a method call on a constructed instance down to conversions
    and float operations. *)
Ltac unfold_methods :=
  unfold get_spent_calories, Running_get_spent_calories,
    SportsWalking_get_spent_calories, Swimming_get_spent_calories,
    get_mean_speed, Training_get_mean_speed, Swimming_get_mean_speed,
    get_distance, Training_get_distance, squared, lift2, flt;
  simpl class_of; cbv iota;
  unfold getattr; simpl lookup_mro; simpl duration_h; simpl weight_kg;
  simpl action; simpl height_sm; simpl length_pool_m; simpl count_pool.

(** Splits on what each conversion, each zero test and each square
    gives; what a hypothesis already tells is used, and a test on literals
    is evaluated. *)
Ltac split_tests :=
  repeat (autorewrite with pyops;
          match goal with
          | E : to_float ?v = _ |- context [to_float ?v] => rewrite E
          | T : (?y =? ?z)%float = _
            |- context [if (?y =? ?z)%float then _ else _] => rewrite T
          | |- context [if (?y =? ?z)%float then _ else _] =>
              let b := eval vm_compute in (y =? z)%float in
              match b with
              | true => change (y =? z)%float with true
              | false => change (y =? z)%float with false
              | _ => let T := fresh "T" in destruct (y =? z)%float eqn:T
              end; cbv iota
          | |- context [to_float ?v] =>
              let y := fresh "y" in
              let E := fresh "E" in
              destruct (to_float_cases v) as [[y E]|E]; rewrite ?E in *
          | |- context [py_pow ?p (PyFloat ?x) 2] =>
              let y := fresh "y" in
              let E := fresh "E" in
              destruct (py_pow_outcome p x) as [[y E]|E]; rewrite ?E in *
          end).

(** Closes the case where the duration was tested zero. *)
Ltac nonzero_contradiction :=
  match goal with
  | Hd : py_nonzero ?d = true, E : to_float ?d = Ok ?y,
      T : (?y =? 0)%float = true |- _ =>
      rewrite (py_nonzero_Ok d y Hd E) in T; discriminate T
  end.

(** C3: with a non-zero duration, [get_spent_calories] of a Running
    instance is
    [(18.0 * get_mean_speed() + 1.79) * weight / 1000.0 * (duration * 60.0)],
    and no division in it fails. *)
Theorem Running_calories_formula (c_pow : float -> float -> float)
  (a d w : pynum) :
  py_nonzero d = true ->
  get_spent_calories c_pow (Running_obj a d w) =
  ((flt 18.0 * get_mean_speed (Running_obj a d w) + flt 1.79) * Ok w
   / flt 1000.0 * (Ok d * flt 60.0))%py
  /\ get_spent_calories c_pow (Running_obj a d w) <> Raise ZeroDivisionError.
Proof.
  intros Hd. unfold_methods. split.
  - split_tests; reflexivity.
  - split_tests; try discriminate; nonzero_contradiction.
Qed.

Lemma Running_calories_formula_witness :
  py_nonzero (PyInt 1) = true
  /\ get_spent_calories square_pow
       (Running_obj (PyInt 15000) (PyInt 1) (PyInt 75))
     = ((flt 18.0
         * get_mean_speed (Running_obj (PyInt 15000) (PyInt 1) (PyInt 75))
         + flt 1.79) * Ok (PyInt 75) / flt 1000.0
        * (Ok (PyInt 1) * flt 60.0))%py.
Proof.
  split; [reflexivity|].
  exact (proj1 (Running_calories_formula square_pow
                  (PyInt 15000) (PyInt 1) (PyInt 75) eq_refl)).
Defined.

(** C4: with a non-zero duration, [get_spent_calories] of a SportsWalking
    instance is
    [(0.035 * weight + ((get_mean_speed() * 0.278) ** 2 / (height / 100.0))
      * 0.029 * weight) * (duration * 60.0)]. *)
Theorem SportsWalking_calories_formula (c_pow : float -> float -> float)
  (a d w h : pynum) :
  py_nonzero d = true ->
  get_spent_calories c_pow (SportsWalking_obj a d w h) =
  ((flt 0.035 * Ok w
    + (squared c_pow (get_mean_speed (SportsWalking_obj a d w h) * flt 0.278)
       / (Ok h / flt 100.0)) * flt 0.029 * Ok w)
   * (Ok d * flt 60.0))%py.
Proof.
  intros Hd. unfold_methods.
  split_tests; try reflexivity; nonzero_contradiction.
Qed.

Lemma SportsWalking_calories_formula_witness :
  py_nonzero (PyInt 1) = true
  /\ py_nonzero (PyInt 180) = true
  /\ get_spent_calories square_pow
       (SportsWalking_obj (PyInt 9000) (PyInt 1) (PyInt 75) (PyInt 180))
     = ((flt 0.035 * Ok (PyInt 75)
         + (squared square_pow
              (get_mean_speed
                 (SportsWalking_obj (PyInt 9000) (PyInt 1) (PyInt 75)
                    (PyInt 180)) * flt 0.278)
            / (Ok (PyInt 180) / flt 100.0)) * flt 0.029 * Ok (PyInt 75))
        * (Ok (PyInt 1) * flt 60.0))%py.
Proof.
  split; [reflexivity|]. split; [reflexivity|].
  exact (SportsWalking_calories_formula square_pow
           (PyInt 9000) (PyInt 1) (PyInt 75) (PyInt 180) eq_refl).
Defined.

(** C5: with a non-zero duration, [get_spent_calories] of a Swimming
    instance is [(get_mean_speed() + 1.1) * 2.0 * weight * duration], the
    speed being the one of the pool, and no division in it fails. *)
Theorem Swimming_calories_formula (c_pow : float -> float -> float)
  (a d w l n : pynum) :
  py_nonzero d = true ->
  (get_spent_calories c_pow (Swimming_obj a d w l n) =
   ((get_mean_speed (Swimming_obj a d w l n) + flt 1.1) * flt 2.0 * Ok w
    * Ok d)%py
   /\ get_mean_speed (Swimming_obj a d w l n)
      = ((Ok l * Ok n / flt 1000.0) / Ok d)%py)
  /\ get_spent_calories c_pow (Swimming_obj a d w l n)
     <> Raise ZeroDivisionError.
Proof.
  intros Hd. split; [split|].
  - unfold get_spent_calories, Swimming_get_spent_calories, lift2, flt.
    simpl class_of; cbv iota.
    destruct (get_mean_speed (Swimming_obj a d w l n)) as [v|e];
      [|reflexivity].
    unfold getattr; simpl. destruct (py_add v (PyFloat 1.1)) as [s|e];
      [|reflexivity].
    simpl. destruct (py_mul s (PyFloat 2)) as [sk|e]; [|reflexivity].
    simpl. destruct (py_mul sk w); reflexivity.
  - apply Swimming_get_mean_speed_eq.
  - unfold get_spent_calories, Swimming_get_spent_calories.
    simpl class_of; cbv iota.
    pose proof (get_mean_speed_no_zero_division
                  (Swimming_obj a d w l n) Hd) as Hv.
    destruct (get_mean_speed (Swimming_obj a d w l n)) as [v|e];
      [|simpl; congruence].
    unfold getattr; simpl.
    clear Hv. destruct v as [z|f]; split_tests; discriminate.
Qed.

Lemma Swimming_calories_formula_witness :
  py_nonzero (PyInt 1) = true
  /\ get_spent_calories square_pow
       (Swimming_obj (PyInt 720) (PyInt 1) (PyInt 80) (PyInt 25) (PyInt 40))
     = Ok (PyFloat 336).
Proof.
  split; [reflexivity|].
  rewrite (proj1 (proj1 (Swimming_calories_formula square_pow
                    (PyInt 720) (PyInt 1) (PyInt 80) (PyInt 25) (PyInt 40)
                    eq_refl))).
  vm_compute. reflexivity.
Defined.

(** ** The dispatcher *)

Lemma trainings_lookup (code : string) :
  trainings !! code = fst <$> variant_of_code code.
Proof.
  unfold trainings, variant_of_code.
  destruct (decide (code = "RUN")) as [->|Hrun]; [reflexivity|].
  destruct (decide (code = "WLK")) as [->|Hwlk]; [reflexivity|].
  destruct (decide (code = "SWM")) as [->|Hswm]; [reflexivity|].
  rewrite !lookup_insert_ne by congruence. apply lookup_empty.
Qed.

Lemma construct_arity (c : class) (data : list pynum) :
  c <> Training ->
  (length data <> arity c -> construct c data = Raise TypeError)
  /\ (length data = arity c ->
      exists t, construct c data = Ok t
                /\ class_of t = c /\ args_of t = data).
Proof.
  intros Hc.
  destruct c; [contradiction|..];
    destruct data as [|x0 [|x1 [|x2 [|x3 [|x4 [|x5 rest]]]]]]; simpl;
    (split; [intros H; first [reflexivity|contradiction]
            |intros H; first [discriminate|eexists; repeat split]]).
Qed.

(** C6: for a code other than "SWM", "RUN" and "WLK", whatever the
    payload, [read_package] prints the line of the KeyError handler and
    returns no instance ([None]). *)
Theorem read_package_unknown_kind (workout_type : string)
  (data : list pynum) :
  workout_type <> "SWM"%string ->
  workout_type <> "RUN"%string ->
  workout_type <> "WLK"%string ->
  read_package workout_type data =
  (["Ошибка KeyError: не верно задан тип тренировки"%string], Ok None).
Proof.
  intros Hswm Hrun Hwlk. unfold read_package, subscript.
  rewrite trainings_lookup. unfold variant_of_code.
  rewrite !decide_False by assumption. reflexivity.
Qed.

Lemma read_package_unknown_kind_witness :
  read_package "XYZ" [PyInt 1; PyInt 2; PyInt 3] =
  (["Ошибка KeyError: не верно задан тип тренировки"%string], Ok None).
Proof.
  apply read_package_unknown_kind; discriminate.
Defined.

(** C7: for a code of the table, a payload whose length is not the count
    the variant requires (3 for "RUN", 4 for "WLK", 5 for "SWM") makes
    [read_package] print the line of the TypeError handler and return no
    instance; a payload of that length gives an instance of the variant,
    built from the payload in order. *)
Theorem read_package_arity (workout_type : string) (c : class) (k : nat)
  (data : list pynum) :
  variant_of_code workout_type = Some (c, k) ->
  (length data <> k ->
   read_package workout_type data =
   (["Ошибка TypeError: ошибка переданных данных"%string], Ok None))
  /\ (length data = k ->
      exists t, read_package workout_type data = ([], Ok (Some t))
                /\ class_of t = c /\ args_of t = data).
Proof.
  intros Hv.
  assert (trainings !! workout_type = Some c) as Hl
    by (rewrite trainings_lookup, Hv; reflexivity).
  assert (c <> Training /\ arity c = k) as [Hc Hk].
  { unfold variant_of_code in Hv.
    repeat case_decide; inversion Hv; subst; split; done. }
  unfold read_package, subscript. rewrite Hl. simpl.
  destruct (construct_arity c data Hc) as [Hbad Hgood]. subst k. split.
  - intros Hlen. rewrite (Hbad Hlen). reflexivity.
  - intros Hlen. destruct (Hgood Hlen) as (t & -> & Ht & Ha).
    exists t. repeat split; assumption.
Qed.

Lemma read_package_arity_witness :
  variant_of_code "RUN" = Some (Running, 3%nat)
  /\ read_package "RUN" [PyInt 1; PyInt 2] =
     (["Ошибка TypeError: ошибка переданных данных"%string], Ok None)
  /\ read_package "RUN" [PyInt 15000; PyInt 1; PyInt 75] =
     ([], Ok (Some (Running_obj (PyInt 15000) (PyInt 1) (PyInt 75)))).
Proof.
  split; [reflexivity|].
  destruct (read_package_arity "RUN" Running 3
              [PyInt 1; PyInt 2] eq_refl) as [Hbad _].
  destruct (read_package_arity "RUN" Running 3
              [PyInt 15000; PyInt 1; PyInt 75] eq_refl) as [_ Hgood].
  split.
  - apply Hbad. discriminate.
  - destruct (Hgood eq_refl) as (t & -> & Ht & Ha).
    destruct t; simpl in Ht; try discriminate.
    simpl in Ha. inversion Ha. reflexivity.
Defined.

(** ** Swimming: what the distance and the speed depend on *)

(** C9, as the code has it: the distance of a Swimming instance is
    [action * 1.38 / 1000.0], so it is the same for two instances with
    the same action count whatever their pool length, lap count, duration
    and weight; what does not depend on the action count is the mean
    speed. *)
Theorem Swimming_distance_from_action_only (a d w l n d' w' l' n' a' : pynum) :
  get_distance (Swimming_obj a d w l n)
  = get_distance (Swimming_obj a d' w' l' n')
  /\ get_distance (Swimming_obj a d w l n)
     = (Ok a * flt 1.38 / flt 1000.0)%py
  /\ get_mean_speed (Swimming_obj a d w l n)
     = get_mean_speed (Swimming_obj a' d w l n).
Proof. repeat split. Qed.

(** C9 as stated fails: two Swimming instances that differ in the action
    count only have different distances. *)
Lemma Swimming_distance_depends_on_action :
  get_distance (Swimming_obj (PyInt 720) (PyInt 1) (PyInt 80)
                  (PyInt 25) (PyInt 40))
  = Ok (PyFloat 0.99359999999999993)
  /\ get_distance (Swimming_obj (PyInt 1440) (PyInt 1) (PyInt 80)
                     (PyInt 25) (PyInt 40))
     = Ok (PyFloat 1.9871999999999999)
  /\ get_distance (Swimming_obj (PyInt 720) (PyInt 1) (PyInt 80)
                     (PyInt 25) (PyInt 40))
     <> get_distance (Swimming_obj (PyInt 1440) (PyInt 1) (PyInt 80)
                        (PyInt 25) (PyInt 40)).
Proof.
  split; [vm_compute; reflexivity|]. split; [vm_compute; reflexivity|].
  vm_compute. intros H. inversion H.
Qed.

(** ** The formatter *)

Lemma digit_is_digit (d : Z) : is_digit (digit d) = true.
Proof.
  unfold digit.
  repeat match goal with
         | |- context [match ?x with _ => _ end] => destruct x
         end; reflexivity.
Qed.

Lemma string_of_uint_digits (u : Decimal.uint) :
  all_digits (NilEmpty.string_of_uint u) = true.
Proof. induction u; simpl; auto. Qed.

(** The integer part is never empty. *)
Lemma integer_part_digits (u : Decimal.uint) :
  exists c s, NilZero.string_of_uint u = String c s
              /\ is_digit c = true /\ all_digits s = true.
Proof.
  pose proof (string_of_uint_digits u) as H.
  destruct u; simpl in *;
    (eexists _, _; split; [reflexivity|split; [reflexivity|assumption]]).
Qed.

Lemma digit_not_point (c : ascii) :
  is_digit c = true -> Ascii.eqb c "." = false /\ Ascii.eqb c "-" = false.
Proof.
  destruct c as [[|] [|] [|] [|] [|] [|] [|] [|]]; vm_compute;
    first [discriminate|split; reflexivity].
Qed.

Lemma split_point_digits (i f : string) :
  all_digits i = true ->
  split_point (i ++ String "." f) = Some (i, f).
Proof.
  induction i as [|c i IH]; simpl; [reflexivity|].
  intros H. apply andb_prop in H as [Hc Hi].
  destruct (digit_not_point c Hc) as [-> _]. rewrite (IH Hi). reflexivity.
Qed.

Lemma render_three_decimals (neg : bool) (q : Z) :
  three_decimals (render neg q) = true.
Proof.
  unfold render, three_decimals.
  destruct (integer_part_digits (N.to_uint (Z.to_N (q / 1000))))
    as (c & s & -> & Hc & Hs).
  destruct (digit_not_point c Hc) as [Hpoint Hminus].
  assert (all_digits (String c s) = true) as Hcs
    by (simpl; rewrite Hc, Hs; reflexivity).
  assert (unsigned ((if neg then "-" else "") ++ String c s
                    ++ String "."
                         (String (digit (q / 100 mod 10))
                            (String (digit (q / 10 mod 10))
                               (String (digit (q mod 10)) ""))))%string
          = (String c s
             ++ String "."
                  (String (digit (q / 100 mod 10))
                     (String (digit (q / 10 mod 10))
                        (String (digit (q mod 10)) ""))))%string) as ->.
  { destruct neg; simpl; [reflexivity|]. rewrite Hminus. reflexivity. }
  rewrite (split_point_digits _ _ Hcs).
  simpl. rewrite Hc, Hs, !digit_is_digit. reflexivity.
Qed.

(** A finite float is rendered with exactly three decimal digits. *)
Lemma fixed3_three_decimals (f : float) :
  finite f = true -> three_decimals (fixed3 f) = true.
Proof.
  unfold finite, fixed3.
  destruct (Prim2SF f); try discriminate; intros _;
    apply render_three_decimals.
Qed.

(** A float is rendered with three decimal digits when it is finite,
    and as [inf], [-inf] or [nan] otherwise. *)
Lemma fixed3_rendered (f : float) : rendered (PyFloat f) (fixed3 f).
Proof.
  unfold rendered, finite_num. rewrite to_float_float.
  destruct (finite f) eqn:Hf; [apply fixed3_three_decimals; exact Hf|].
  unfold finite in Hf. unfold fixed3.
  destruct (Prim2SF f) as [s|s| |s m e]; try discriminate Hf.
  - destruct s; split; auto.
  - split; auto.
Qed.

Lemma format_3f_rendered (v : pynum) :
  convertible v = true ->
  exists s, format_3f v = Ok s /\ rendered v s.
Proof.
  unfold convertible. intros Hv.
  destruct (to_float v) as [f|e] eqn:E; [clear Hv|discriminate Hv].
  exists (fixed3 f). unfold format_3f. rewrite E. split; [reflexivity|].
  pose proof (fixed3_rendered f) as H.
  unfold rendered, finite_num in *. rewrite E.
  rewrite to_float_float in H. exact H.
Qed.

(** C8, as the code has it: when the four numeric fields convert to
    float (a float always does; an int must fit a float), [get_message]
    gives the one template, with the fields in the order kind, duration,
    distance, mean speed, calories; each finite number has exactly three
    decimal digits, and an infinite or NaN number is rendered [inf],
    [-inf] or [nan], without decimal digits. *)
Theorem get_message_template (kind : string) (d dist v c : pynum) :
  convertible d = true ->
  convertible dist = true ->
  convertible v = true ->
  convertible c = true ->
  exists sd sdist sv sc,
    get_message (InfoMessage_init kind d dist v c)
    = Ok (summary kind sd sdist sv sc)
    /\ (format_3f d = Ok sd /\ format_3f dist = Ok sdist
        /\ format_3f v = Ok sv /\ format_3f c = Ok sc)
    /\ (rendered d sd /\ rendered dist sdist
        /\ rendered v sv /\ rendered c sc).
Proof.
  intros Hd Hdist Hv Hc.
  destruct (format_3f_rendered d Hd) as (sd & Ed & Td).
  destruct (format_3f_rendered dist Hdist) as (sdist & Edist & Tdist).
  destruct (format_3f_rendered v Hv) as (sv & Ev & Tv).
  destruct (format_3f_rendered c Hc) as (sc & Ec & Tc).
  exists sd, sdist, sv, sc. repeat split; try assumption.
  unfold get_message, InfoMessage_init, default_message. simpl.
  rewrite Ed, Edist, Ev, Ec. reflexivity.
Qed.

Lemma get_message_template_witness :
  get_message (InfoMessage_init "Swimming" (PyInt 1)
                 (PyFloat 0.99359999999999993) (PyFloat 1) (PyFloat 336))
  = Ok "Тип тренировки: Swimming; Длительность: 1.000 ч.; Дистанция: 0.994 км; Ср. скорость: 1.000 км/ч; Потрачено ккал: 336.000."%string
  /\ exists sc, format_3f (PyFloat neg_infinity) = Ok sc
                /\ rendered (PyFloat neg_infinity) sc.
Proof.
  split.
  - destruct (get_message_template "Swimming" (PyInt 1)
                (PyFloat 0.99359999999999993) (PyFloat 1) (PyFloat 336)
                eq_refl eq_refl eq_refl eq_refl)
      as (sd & sdist & sv & sc & -> & (Ed & Edist & Ev & Ec) & _).
    vm_compute in Ed, Edist, Ev, Ec.
    injection Ed as <-. injection Edist as <-.
    injection Ev as <-. injection Ec as <-.
    reflexivity.
  - destruct (get_message_template "Running" (PyFloat 1) (PyFloat 9.75)
                (PyFloat 9.75) (PyFloat neg_infinity)
                eq_refl eq_refl eq_refl eq_refl)
      as (sd & sdist & sv & sc & _ & (_ & _ & _ & Ec) & (_ & _ & _ & Rc)).
    exists sc. split; assumption.
Defined.

(** C8 as stated fails: a result whose calories overflowed to infinity
    is rendered [inf], without decimal digits.  Such a result is computed
    from finite positive inputs. *)
Lemma get_message_infinite_calories :
  show_training_info square_pow
    (Running_obj (PyInt 15000) (PyFloat 1) (PyFloat 1e308))
  = Ok (InfoMessage_init "Running" (PyFloat 1) (PyFloat 9.75)
          (PyFloat 9.75) (PyFloat infinity))
  /\ get_message (InfoMessage_init "Running" (PyFloat 1) (PyFloat 9.75)
                    (PyFloat 9.75) (PyFloat infinity))
     = Ok "Тип тренировки: Running; Длительность: 1.000 ч.; Дистанция: 9.750 км; Ср. скорость: 9.750 км/ч; Потрачено ккал: inf."%string
  /\ format_3f (PyFloat infinity) = Ok "inf"%string
  /\ three_decimals "inf" = false.
Proof. vm_compute. repeat split. Qed.

(** ** What can fail in the computations *)

Lemma convertible_Ok (v : pynum) :
  convertible v = true -> exists y, to_float v = Ok y.
Proof.
  unfold convertible. destruct (to_float v) as [y|e]; [eauto|discriminate].
Qed.

Lemma show_training_info_returns (c_pow : float -> float -> float)
  (self : instance) :
  returns (show_training_info c_pow self)
  = returns (get_distance self) && returns (get_mean_speed self)
    && returns (get_spent_calories c_pow self).
Proof.
  unfold show_training_info.
  destruct (get_distance self); simpl; [|reflexivity].
  destruct (get_mean_speed self); simpl; [|reflexivity].
  destruct (get_spent_calories c_pow self); reflexivity.
Qed.

(** Uses the hypotheses that the fields convert and that the duration
    is not zero. *)
Ltac use_conversions :=
  repeat match goal with
    | H : _ && _ = true |- _ => apply andb_prop in H as [? ?]
    | H : convertible ?v = true |- _ =>
        let y := fresh "y" in
        let E := fresh "E" in
        apply convertible_Ok in H as [y E]
    end;
  match goal with
  | Hd : py_nonzero ?d = true, E : to_float ?d = Ok ?y |- _ =>
      apply (fun H => py_nonzero_Ok d y H E) in Hd
  end.

(** C10, as the code has it.  For an instance of a concrete class whose
    fields convert to float (any float; an int that fits) and whose
    duration is not zero, [get_distance] and [get_mean_speed] return;
    [get_spent_calories] and [show_training_info] return for Running and
    Swimming, and for SportsWalking exactly when the height in metres is
    not zero and the square of the speed does not overflow. *)
Theorem computation_returns (c_pow : float -> float -> float)
  (self : instance) :
  class_of self <> Training ->
  fields_convert self = true ->
  py_nonzero (duration_h self) = true ->
  returns (get_distance self) = true
  /\ returns (get_mean_speed self) = true
  /\ returns (get_spent_calories c_pow self) = walking_guard c_pow self
  /\ returns (show_training_info c_pow self) = walking_guard c_pow self.
Proof.
  intros Hc Hf Hd.
  assert (returns (get_distance self) = true
          /\ returns (get_mean_speed self) = true
          /\ returns (get_spent_calories c_pow self)
             = walking_guard c_pow self) as (H1 & H2 & H3).
  2: { rewrite show_training_info_returns, H1, H2, H3. auto. }
  destruct self as [a d w|a d w|a d w h|a d w l n]; [contradiction|..];
    simpl in Hf, Hd; unfold walking_guard; unfold_methods.
  - use_conversions.
    repeat split; split_tests; reflexivity.
  - use_conversions.
    repeat split; split_tests; try reflexivity.
    all: unfold py_nonzero; autorewrite with pyops;
      repeat match goal with
             | T : (?y =? ?z)%float = _ |- context [(?y =? ?z)%float] =>
                 rewrite T
             end; simpl; rewrite ?andb_false_r; reflexivity.
  - use_conversions.
    match goal with
    | H : returns _ = true |- _ => rename H into Hp
    end.
    destruct l as [zl|fl], n as [zn|fn]; simpl py_mul in *;
      unfold float_mul in *; autorewrite with pyops in Hp;
      repeat match type of Hp with
             | context [to_float ?v] =>
                 let y := fresh "y" in
                 let E := fresh "E" in
                 destruct (to_float_cases v) as [[y E]|E];
                 rewrite E in Hp; autorewrite with pyops in Hp;
                 [|discriminate Hp]
             end;
      repeat split; split_tests; reflexivity.
Qed.

Lemma computation_returns_witness :
  (class_of (SportsWalking_obj (PyInt 9000) (PyInt 1) (PyInt 75)
               (PyInt 180)) <> Training
   /\ fields_convert (SportsWalking_obj (PyInt 9000) (PyInt 1) (PyInt 75)
                        (PyInt 180)) = true
   /\ py_nonzero (PyInt 1) = true)
  /\ returns (show_training_info square_pow
                (SportsWalking_obj (PyInt 9000) (PyInt 1) (PyInt 75)
                   (PyInt 180))) = true
  /\ returns (show_training_info square_pow
                (Swimming_obj (PyInt 720) (PyInt 1) (PyInt 80) (PyInt 25)
                   (PyInt 40))) = true.
Proof.
  split; [repeat split; discriminate|]. split.
  - destruct (computation_returns square_pow
                (SportsWalking_obj (PyInt 9000) (PyInt 1) (PyInt 75)
                   (PyInt 180))) as (_ & _ & _ & ->);
      [discriminate|reflexivity|reflexivity|reflexivity].
  - destruct (computation_returns square_pow
                (Swimming_obj (PyInt 720) (PyInt 1) (PyInt 80) (PyInt 25)
                   (PyInt 40))) as (_ & _ & _ & ->);
      [discriminate|reflexivity|reflexivity|reflexivity].
Defined.

(** C10 as stated fails: a SportsWalking instance with positive duration,
    weight and height whose height is so small that [height / 100.0]
    rounds to zero divides by zero. *)
Lemma SportsWalking_tiny_height_divides_by_zero :
  ((0 <? 1)%float = true /\ (0 <? 75)%float = true
   /\ (0 <? 5e-324)%float = true)
  /\ py_truediv (PyFloat 5e-324) (PyFloat 100) = Ok (PyFloat 0)
  /\ get_spent_calories square_pow
       (SportsWalking_obj (PyInt 9000) (PyFloat 1) (PyFloat 75)
          (PyFloat 5e-324))
     = Raise ZeroDivisionError
  /\ show_training_info square_pow
       (SportsWalking_obj (PyInt 9000) (PyFloat 1) (PyFloat 75)
          (PyFloat 5e-324))
     = Raise ZeroDivisionError.
Proof. vm_compute. repeat split. Qed.

(** The same instance raises whatever the C library's [pow] returns. *)
Lemma SportsWalking_tiny_height_raises (c_pow : float -> float -> float) :
  returns (get_spent_calories c_pow
             (SportsWalking_obj (PyInt 9000) (PyFloat 1) (PyFloat 75)
                (PyFloat 5e-324))) = false.
Proof.
  unfold_methods. split_tests; reflexivity.
Qed.

(** Other ways to fail with positive fields: an action count that does
    not fit a float, and a speed whose square overflows. *)
Lemma Running_huge_action_overflows :
  get_distance (Running_obj (PyInt (2 ^ 1024)) (PyFloat 1) (PyFloat 75))
  = Raise OverflowError.
Proof. vm_compute. reflexivity. Qed.

Lemma SportsWalking_square_overflows :
  get_spent_calories square_pow
    (SportsWalking_obj (PyInt 1) (PyFloat 1e-200) (PyFloat 1) (PyFloat 1))
  = Raise OverflowError.
Proof. vm_compute. reflexivity. Qed.

(** Why C4 needs the non-zero duration: with a zero duration and a height
    that does not fit a float, the method raises on the height, the
    formula on the speed. *)
Lemma SportsWalking_formula_needs_duration :
  get_spent_calories square_pow
    (SportsWalking_obj (PyInt 9000) (PyFloat 0) (PyInt 75)
       (PyInt (2 ^ 1024)))
  = Raise OverflowError
  /\ ((flt 0.035 * Ok (PyInt 75)
       + (squared square_pow
            (get_mean_speed
               (SportsWalking_obj (PyInt 9000) (PyFloat 0) (PyInt 75)
                  (PyInt (2 ^ 1024))) * flt 0.278)
          / (Ok (PyInt (2 ^ 1024)) / flt 100.0)) * flt 0.029
         * Ok (PyInt 75))
      * (Ok (PyFloat 0) * flt 60.0))%py
     = Raise ZeroDivisionError.
Proof. vm_compute. split; reflexivity. Qed.

(** ** Beyond the claims: the dispatcher as its callers see it *)

Lemma construct_cases (c : class) (data : list pynum) :
  construct c data = Raise TypeError
  \/ exists t, construct c data = Ok t
               /\ class_of t = c /\ args_of t = data.
Proof.
  destruct c;
    destruct data as [|x0 [|x1 [|x2 [|x3 [|x4 [|x5 rest]]]]]]; simpl;
    first [left; reflexivity|right; eexists; repeat split].
Qed.

Lemma trainings_values (code : string) (c : class) :
  trainings !! code = Some c -> workout_code c = Some code.
Proof.
  rewrite trainings_lookup. unfold variant_of_code.
  repeat case_decide; simpl; intros E; inversion E; subst; reflexivity.
Qed.

Lemma read_package_cases (workout_type : string) (data : list pynum) :
  (read_package workout_type data = ([key_error_line], Ok None)
   /\ trainings !! workout_type = None)
  \/ (read_package workout_type data = ([type_error_line], Ok None)
      /\ exists c, trainings !! workout_type = Some c
                   /\ length data <> arity c)
  \/ (exists t, read_package workout_type data = ([], Ok (Some t))
                /\ workout_code (class_of t) = Some workout_type
                /\ args_of t = data).
Proof.
  unfold read_package, subscript.
  destruct (trainings !! workout_type) as [c|] eqn:Hl; simpl;
    [|left; split; reflexivity].
  right. pose proof (trainings_values _ _ Hl) as Hc.
  assert (c <> Training) as Hbase by (intros ->; discriminate Hc).
  destruct (construct_arity c data Hbase) as [Hbad Hgood].
  destruct (decide (length data = arity c)) as [Hlen|Hlen].
  - right. destruct (Hgood Hlen) as (t & -> & Ht & Ha).
    exists t. subst c. repeat split; assumption.
  - left. rewrite (Hbad Hlen). split; [reflexivity|eauto].
Qed.

(** X1: [read_package] never raises.  Either it prints exactly one of
    its two lines and returns [None], or it prints nothing and returns an
    instance of one of the three classes of the dictionary, never of the
    base class, built from the payload in order. *)
Theorem read_package_total (workout_type : string) (data : list pynum) :
  read_package workout_type data = ([key_error_line], Ok None)
  \/ read_package workout_type data = ([type_error_line], Ok None)
  \/ exists t, read_package workout_type data = ([], Ok (Some t))
               /\ class_of t <> Training
               /\ workout_code (class_of t) = Some workout_type
               /\ args_of t = data.
Proof.
  destruct (read_package_cases workout_type data)
    as [[H _]|[[H _]|(t & H & Hc & Ha)]]; [auto|auto|].
  right. right. exists t. repeat split; try assumption.
  intros E. rewrite E in Hc. discriminate Hc.
Qed.

Lemma read_package_args_of (t : instance) (code : string) :
  workout_code (class_of t) = Some code ->
  read_package code (args_of t) = ([], Ok (Some t)).
Proof.
  intros Hc. unfold read_package, subscript.
  destruct t; simpl in Hc; inversion Hc; subst; reflexivity.
Qed.

(** X2: building an instance and reading it back.  The positional
    arguments of an instance of a class of the dictionary, sent under the
    key of its class, give the same instance again, and nothing is
    printed. *)
Theorem read_package_round_trip (t : instance) (code : string) :
  workout_code (class_of t) = Some code ->
  read_package code (args_of t) = ([], Ok (Some t)).
Proof. apply read_package_args_of. Qed.

Lemma read_package_round_trip_witness :
  read_package "SWM"
    (args_of (Swimming_obj (PyInt 720) (PyInt 1) (PyInt 80) (PyInt 25)
                (PyInt 40)))
  = ([], Ok (Some (Swimming_obj (PyInt 720) (PyInt 1) (PyInt 80)
                     (PyInt 25) (PyInt 40)))).
Proof. apply read_package_round_trip. reflexivity. Defined.

(** ** Beyond the claims: what the methods can give *)

Lemma get_mean_speed_outcome (self : instance) :
  numeric_outcome (get_mean_speed self).
Proof.
  destruct self as [a d w|a d w|a d w h|a d w l n]; unfold_methods;
    try (split_tests; constructor).
  destruct l as [zl|fl], n as [zn|fn]; simpl py_mul; unfold float_mul;
    split_tests; constructor.
Qed.

Lemma get_spent_calories_outcome (c_pow : float -> float -> float)
  (self : instance) :
  class_of self <> Training ->
  numeric_outcome (get_spent_calories c_pow self).
Proof.
  intros Hc.
  destruct self as [a d w|a d w|a d w h|a d w l n]; [contradiction|..];
    unfold_methods; try (split_tests; constructor).
  destruct l as [zl|fl], n as [zn|fn]; simpl py_mul; unfold float_mul;
    split_tests; constructor.
Qed.

(** X3: what the three methods can give.  [get_distance] returns a float
    or raises OverflowError; [get_mean_speed] and, on an instance of a
    concrete class, [get_spent_calories] return a float or raise
    OverflowError or ZeroDivisionError, and nothing else, even when every
    field is an int; on an instance of the base class
    [get_spent_calories] raises NotImplementedError. *)
Theorem methods_outcomes (c_pow : float -> float -> float)
  (self : instance) :
  ((exists f, get_distance self = Ok (PyFloat f))
   \/ get_distance self = Raise OverflowError)
  /\ numeric_outcome (get_mean_speed self)
  /\ if decide (class_of self = Training)
     then get_spent_calories c_pow self = Raise NotImplementedError
     else numeric_outcome (get_spent_calories c_pow self).
Proof.
  split; [apply get_distance_outcome|].
  split; [apply get_mean_speed_outcome|].
  case_decide as Hc.
  - destruct self; try discriminate Hc. reflexivity.
  - apply get_spent_calories_outcome. exact Hc.
Qed.

(** X4: an instance that [read_package] returned has its calories
    computed by one of the three overrides: [get_spent_calories] never
    raises NotImplementedError (nor any exception other than those of
    float arithmetic) on it. *)
Theorem dispatched_calories_implemented (c_pow : float -> float -> float)
  (workout_type : string) (data : list pynum) (out : stdout)
  (t : instance) :
  read_package workout_type data = (out, Ok (Some t)) ->
  get_spent_calories c_pow t <> Raise NotImplementedError
  /\ numeric_outcome (get_spent_calories c_pow t).
Proof.
  intros H.
  assert (class_of t <> Training) as Hc.
  { destruct (read_package_cases workout_type data)
      as [[H' _]|[[H' _]|(t' & H' & Hc & _)]];
      rewrite H' in H; inversion H; subst.
    intros E. rewrite E in Hc. discriminate Hc. }
  pose proof (get_spent_calories_outcome c_pow t Hc) as Ho.
  split; [|exact Ho]. inversion Ho; congruence.
Qed.

Lemma dispatched_calories_implemented_witness :
  get_spent_calories square_pow
    (Running_obj (PyInt 15000) (PyInt 1) (PyInt 75))
  <> Raise NotImplementedError.
Proof.
  exact (proj1 (dispatched_calories_implemented square_pow "RUN"
                  [PyInt 15000; PyInt 1; PyInt 75] []
                  (Running_obj (PyInt 15000) (PyInt 1) (PyInt 75))
                  eq_refl)).
Defined.

(** ** Beyond the claims: a zero duration, and the base class *)

Lemma py_zero_Ok (v : pynum) :
  py_zero v = true -> exists y, to_float v = Ok y /\ (y =? 0)%float = true.
Proof.
  unfold py_zero. destruct (to_float v) as [y|e]; [eauto|discriminate].
Qed.

(** Uses the hypotheses that the fields convert and that the duration
    is zero. *)
Ltac use_zero_duration :=
  repeat match goal with
    | H : _ && _ = true |- _ => apply andb_prop in H as [? ?]
    | H : py_zero ?d = true |- _ =>
        let y := fresh "y" in
        let E := fresh "E" in
        let T := fresh "T" in
        apply py_zero_Ok in H as (y & E & T)
    | H : convertible ?v = true |- _ =>
        let y := fresh "y" in
        let E := fresh "E" in
        apply convertible_Ok in H as [y E]
    end.

Lemma zero_duration_speed (self : instance) :
  class_of self <> Training ->
  fields_convert self = true ->
  py_zero (duration_h self) = true ->
  returns (get_distance self) = true
  /\ get_mean_speed self = Raise ZeroDivisionError.
Proof.
  intros Hc Hf Hd.
  destruct self as [a d w|a d w|a d w h|a d w l n]; [contradiction|..];
    simpl in Hf, Hd; unfold_methods; use_zero_duration.
  1,2: split; split_tests; reflexivity.
  match goal with
  | H : returns _ = true |- _ => rename H into Hp
  end.
  destruct l as [zl|fl], n as [zn|fn]; simpl py_mul in *;
    unfold float_mul in *; autorewrite with pyops in Hp;
    repeat match type of Hp with
           | context [to_float ?v] =>
               let y := fresh "y" in
               let E := fresh "E" in
               destruct (to_float_cases v) as [[y E]|E];
               rewrite E in Hp; autorewrite with pyops in Hp;
               [|discriminate Hp]
           end;
    split; split_tests; reflexivity.
Qed.

Lemma zero_duration_calories (c_pow : float -> float -> float)
  (self : instance) :
  class_of self <> Training ->
  fields_convert self = true ->
  py_zero (duration_h self) = true ->
  get_spent_calories c_pow self = Raise ZeroDivisionError.
Proof.
  intros Hc Hf Hd.
  destruct self as [a d w|a d w|a d w h|a d w l n]; [contradiction|..].
  3: { pose proof (zero_duration_speed _ Hc Hf Hd) as [_ Hv].
       unfold get_spent_calories, Swimming_get_spent_calories.
       simpl class_of. cbv iota. rewrite Hv. reflexivity. }
  all: simpl in Hf, Hd; unfold_methods; use_zero_duration;
    split_tests; reflexivity.
Qed.

Lemma zero_duration_main (c_pow : float -> float -> float)
  (self : instance) :
  class_of self <> Training ->
  fields_convert self = true ->
  py_zero (duration_h self) = true ->
  show_training_info c_pow self = Raise ZeroDivisionError
  /\ main c_pow self = Raise ZeroDivisionError.
Proof.
  intros Hc Hf Hd.
  destruct (zero_duration_speed self Hc Hf Hd) as [Hdist Hv].
  assert (show_training_info c_pow self = Raise ZeroDivisionError) as Hs.
  { unfold show_training_info.
    destruct (get_distance self); [|discriminate Hdist].
    simpl. rewrite Hv. reflexivity. }
  split; [exact Hs|]. unfold main. rewrite Hs. reflexivity.
Qed.

(** X5: a zero duration is not refused anywhere.  On an instance of a
    concrete class whose fields convert to float and whose duration is
    zero, [get_distance] returns, and [get_mean_speed],
    [get_spent_calories], [show_training_info] and [main] all raise
    ZeroDivisionError: nothing is printed. *)
Theorem zero_duration_raises (c_pow : float -> float -> float)
  (self : instance) :
  class_of self <> Training ->
  fields_convert self = true ->
  py_zero (duration_h self) = true ->
  returns (get_distance self) = true
  /\ get_mean_speed self = Raise ZeroDivisionError
  /\ get_spent_calories c_pow self = Raise ZeroDivisionError
  /\ show_training_info c_pow self = Raise ZeroDivisionError
  /\ main c_pow self = Raise ZeroDivisionError.
Proof.
  intros Hc Hf Hd.
  destruct (zero_duration_speed self Hc Hf Hd) as [Hdist Hv].
  destruct (zero_duration_main c_pow self Hc Hf Hd) as [Hs Hm].
  pose proof (zero_duration_calories c_pow self Hc Hf Hd) as Hcal.
  repeat split; assumption.
Qed.

Lemma zero_duration_raises_witness :
  main square_pow (Running_obj (PyInt 15000) (PyInt 0) (PyInt 75))
  = Raise ZeroDivisionError
  /\ main square_pow
       (Swimming_obj (PyInt 720) (PyFloat 0) (PyInt 80) (PyInt 25)
          (PyInt 40))
     = Raise ZeroDivisionError.
Proof.
  split.
  - apply (zero_duration_raises square_pow
             (Running_obj (PyInt 15000) (PyInt 0) (PyInt 75)));
      [discriminate|reflexivity|reflexivity].
  - apply (zero_duration_raises square_pow
             (Swimming_obj (PyInt 720) (PyFloat 0) (PyInt 80) (PyInt 25)
                (PyInt 40)));
      [discriminate|reflexivity|reflexivity].
Defined.

(** X6: an instance of the base class gives no report.  Whatever its
    fields, [show_training_info] and [main] raise: the
    NotImplementedError of [Training.get_spent_calories] when the speed
    was computed, and otherwise the exception of the speed. *)
Theorem base_class_never_reports (c_pow : float -> float -> float)
  (a d w : pynum) :
  exists e,
    show_training_info c_pow (Training_obj a d w) = Raise e
    /\ main c_pow (Training_obj a d w) = Raise e
    /\ ((returns (get_mean_speed (Training_obj a d w)) = true
         /\ e = NotImplementedError)
        \/ get_mean_speed (Training_obj a d w) = Raise e).
Proof.
  unfold main, show_training_info.
  destruct (get_distance_outcome (Training_obj a d w)) as [[x E]|E].
  - rewrite E. simpl.
    destruct (get_mean_speed (Training_obj a d w)) as [v|e]; simpl.
    + exists NotImplementedError. auto.
    + exists e. auto.
  - exists OverflowError. rewrite E. simpl. repeat split. right.
    unfold get_mean_speed, Training_get_mean_speed. simpl class_of.
    cbv iota. rewrite E. reflexivity.
Qed.

(** ** Beyond the claims: from a computed result to the printed line *)

Lemma format_outcome (m : InfoMessage) (template : list piece) :
  (exists s, format m template = Ok s)
  \/ format m template = Raise OverflowError.
Proof.
  induction template as [|p rest IH]; simpl; [eauto|].
  assert ((exists s, field_value m p = Ok s)
          \/ field_value m p = Raise OverflowError) as [[s ->]| ->].
  { destruct p as [s| |[]]; simpl; eauto; unfold format_3f;
      match goal with
      | |- context [to_float ?v] =>
          destruct (to_float_cases v) as [[y E]|E]; rewrite E; simpl; eauto
      end. }
  - simpl. destruct IH as [[tail ->]| ->]; simpl; eauto.
  - right. reflexivity.
Qed.

(** X7: what [get_message] can do on a result built with the default
    template.  It returns a string or raises OverflowError, and it
    returns exactly when each of the four numeric fields converts to
    float (a float always does, an int when it is not too large). *)
Theorem get_message_outcome (kind : string) (d dist v c : pynum) :
  ((exists s, get_message (InfoMessage_init kind d dist v c) = Ok s)
   \/ get_message (InfoMessage_init kind d dist v c)
      = Raise OverflowError)
  /\ returns (get_message (InfoMessage_init kind d dist v c))
     = convertible d && convertible dist && convertible v
       && convertible c.
Proof.
  split; [apply format_outcome|].
  unfold get_message, InfoMessage_init, default_message, convertible.
  simpl. unfold format_3f.
  destruct (to_float d); simpl; [|reflexivity].
  destruct (to_float dist); simpl; [|reflexivity].
  destruct (to_float v); simpl; [|reflexivity].
  destruct (to_float c); reflexivity.
Qed.

(** A speed that was computed had its duration converted. *)
Lemma get_mean_speed_converts_duration (self : instance) (v : pynum) :
  get_mean_speed self = Ok v ->
  exists y, to_float (duration_h self) = Ok y.
Proof.
  intros H.
  destruct (to_float_cases (duration_h self)) as [[y E]|E]; [eauto|].
  exfalso. revert H.
  destruct self as [a d w|a d w|a d w h|a d w l n]; simpl in E;
    unfold_methods; try (split_tests; discriminate).
  destruct l as [zl|fl], n as [zn|fn]; simpl py_mul; unfold float_mul;
    split_tests; discriminate.
Qed.

(** X8: formatting cannot fail on a computed result.  When
    [show_training_info] returns, [main] returns too and prints exactly
    one line: the template filled with the name of the instance's class,
    its duration, and the three floats that [get_distance],
    [get_mean_speed] and [get_spent_calories] returned, in this order. *)
Theorem main_prints_summary (c_pow : float -> float -> float)
  (self : instance) (info : InfoMessage) :
  show_training_info c_pow self = Ok info ->
  exists fd fdist fv fc,
    to_float (duration_h self) = Ok fd
    /\ get_distance self = Ok (PyFloat fdist)
    /\ get_mean_speed self = Ok (PyFloat fv)
    /\ get_spent_calories c_pow self = Ok (PyFloat fc)
    /\ main c_pow self =
       Ok [summary (class_name (class_of self)) (fixed3 fd)
             (fixed3 fdist) (fixed3 fv) (fixed3 fc)].
Proof.
  intros H. unfold main. rewrite H. revert H. unfold show_training_info.
  destruct (get_distance_outcome self) as [[fdist Ed]|Ed]; rewrite Ed;
    simpl; [|discriminate].
  pose proof (get_mean_speed_outcome self) as Hv.
  inversion Hv as [fv Ev|Ev|Ev]; simpl; try discriminate.
  destruct (get_mean_speed_converts_duration self (PyFloat fv)
              (eq_sym Ev)) as [fd Efd].
  destruct (decide (class_of self = Training)) as [Hc|Hc].
  { destruct self; try discriminate Hc. discriminate. }
  pose proof (get_spent_calories_outcome c_pow self Hc) as Hcal.
  inversion Hcal as [fc Ec|Ec|Ec]; simpl; try discriminate.
  intros [= <-]. exists fd, fdist, fv, fc. repeat split; try assumption.
  unfold get_message, InfoMessage_init, default_message. simpl.
  unfold format_3f. rewrite Efd. reflexivity.
Qed.

Lemma main_prints_summary_witness :
  main square_pow (Running_obj (PyInt 15000) (PyInt 1) (PyInt 75))
  = Ok ["Тип тренировки: Running; Длительность: 1.000 ч.; Дистанция: 9.750 км; Ср. скорость: 9.750 км/ч; Потрачено ккал: 797.805."%string].
Proof.
  destruct (main_prints_summary square_pow
              (Running_obj (PyInt 15000) (PyInt 1) (PyInt 75))
              (InfoMessage_init "Running" (PyInt 1) (PyFloat 9.75)
                 (PyFloat 9.75) (PyFloat 797.80499999999995)) eq_refl)
    as (fd & fdist & fv & fc & Ed & Edist & Ev & Ec & ->).
  vm_compute in Ed, Edist, Ev, Ec.
  injection Ed as <-. injection Edist as <-.
  injection Ev as <-. injection Ec as <-.
  vm_compute. reflexivity.
Defined.

(** ** Beyond the claims: the loop over the packages *)

Lemma main_one_line (c_pow : float -> float -> float) (t : instance)
  (out : stdout) :
  main c_pow t = Ok out -> length out = 1%nat.
Proof.
  unfold main. destruct (show_training_info c_pow t) as [info|e];
    [|discriminate]. simpl.
  destruct (get_message info); simpl; intros [= <-]; reflexivity.
Qed.

(** X9: one line per package, and which one.  When the loop over the
    packages ends without an exception, its output lists, package by
    package and in order, exactly one line each: the KeyError or
    TypeError line that [read_package] printed for the package, or the
    line that [main] printed for the instance [read_package] returned.
    So it has as many lines as there were packages. *)
Theorem run_one_line_per_package (c_pow : float -> float -> float)
  (ps : list (string * list pynum)) (out : stdout) :
  run c_pow ps = Ok out ->
  Forall2 (package_line c_pow) ps out /\ length out = length ps.
Proof.
  intros H.
  assert (Forall2 (package_line c_pow) ps out) as HF.
  2: { split; [exact HF|]. symmetry. exact (Forall2_length _ _ _ HF). }
  revert out H. induction ps as [|[code data] rest IH]; intros out; simpl.
  - intros [= <-]. constructor.
  - destruct (read_package_cases code data)
      as [[Hr _]|[[Hr _]|(t & Hr & _ & _)]]; rewrite Hr; simpl.
    + destruct (run c_pow rest) as [later|e]; [|discriminate].
      simpl. intros [= <-]. constructor; [|apply IH; reflexivity].
      left. split; [auto|exact Hr].
    + destruct (run c_pow rest) as [later|e]; [|discriminate].
      simpl. intros [= <-]. constructor; [|apply IH; reflexivity].
      left. split; [auto|exact Hr].
    + destruct (main c_pow t) as [shown|e] eqn:Hm; [|discriminate].
      simpl. destruct (run c_pow rest) as [later|e]; [|discriminate].
      simpl. intros [= <-].
      pose proof (main_one_line c_pow t shown Hm) as Hlen.
      destruct shown as [|line [|]]; try discriminate Hlen.
      simpl. constructor; [|apply IH; reflexivity].
      right. exists t. split; assumption.
Qed.

Lemma run_one_line_per_package_witness :
  exists out, run square_pow packages = Ok out
              /\ Forall2 (package_line square_pow) packages out
              /\ length out = 3%nat.
Proof.
  destruct (run square_pow packages) as [out|e] eqn:H;
    [|vm_compute in H; discriminate H].
  exists out. split; [reflexivity|].
  exact (run_one_line_per_package square_pow packages out H).
Defined.



(** X11: a package with a zero duration passes [read_package] and stops
    the loop.  For an instance of a class of the dictionary whose fields
    convert to float and whose duration is zero, the package made of its
    arguments is accepted, and the loop raises ZeroDivisionError at it,
    whatever packages follow: they are not processed. *)
Theorem run_stops_at_zero_duration (c_pow : float -> float -> float)
  (t : instance) (code : string) (rest : list (string * list pynum)) :
  workout_code (class_of t) = Some code ->
  fields_convert t = true ->
  py_zero (duration_h t) = true ->
  read_package code (args_of t) = ([], Ok (Some t))
  /\ run c_pow ((code, args_of t) :: rest) = Raise ZeroDivisionError.
Proof.
  intros Hc Hf Hd.
  pose proof (read_package_args_of t code Hc) as Hr.
  split; [exact Hr|]. simpl. rewrite Hr. simpl.
  assert (class_of t <> Training) as Hbase
    by (intros E; rewrite E in Hc; discriminate Hc).
  destruct (zero_duration_main c_pow t Hbase Hf Hd) as [_ ->].
  reflexivity.
Qed.

Lemma run_stops_at_zero_duration_witness :
  run square_pow
    [("RUN"%string, [PyInt 15000; PyInt 0; PyInt 75]);
     ("SWM"%string, [PyInt 720; PyInt 1; PyInt 80; PyInt 25; PyInt 40])]
  = Raise ZeroDivisionError.
Proof.
  exact (proj2 (run_stops_at_zero_duration square_pow
                  (Running_obj (PyInt 15000) (PyInt 0) (PyInt 75)) "RUN"
                  [("SWM"%string,
                    [PyInt 720; PyInt 1; PyInt 80; PyInt 25; PyInt 40])]
                  eq_refl eq_refl eq_refl)).
Defined.

(** ** Beyond the claims: ints where floats are announced *)

(** X12: the fields are announced as floats and the script passes ints.
    For Running and SportsWalking that makes no difference: an instance
    and the one with every field replaced by its float value have the
    same distance, speed and calories.  For Swimming the same holds of
    the action count, the duration and the weight (the pool's length and
    lap count are multiplied as ints first). *)
Theorem int_fields_as_floats (c_pow : float -> float -> float)
  (a d w h l n : pynum) (fa fd fw fh : float) :
  to_float a = Ok fa ->
  to_float d = Ok fd ->
  to_float w = Ok fw ->
  to_float h = Ok fh ->
  (get_distance (Running_obj a d w)
   = get_distance (Running_obj (PyFloat fa) (PyFloat fd) (PyFloat fw))
   /\ get_mean_speed (Running_obj a d w)
      = get_mean_speed (Running_obj (PyFloat fa) (PyFloat fd) (PyFloat fw))
   /\ get_spent_calories c_pow (Running_obj a d w)
      = get_spent_calories c_pow
          (Running_obj (PyFloat fa) (PyFloat fd) (PyFloat fw)))
  /\ (get_distance (SportsWalking_obj a d w h)
      = get_distance
          (SportsWalking_obj (PyFloat fa) (PyFloat fd) (PyFloat fw)
             (PyFloat fh))
      /\ get_mean_speed (SportsWalking_obj a d w h)
         = get_mean_speed
             (SportsWalking_obj (PyFloat fa) (PyFloat fd) (PyFloat fw)
                (PyFloat fh))
      /\ get_spent_calories c_pow (SportsWalking_obj a d w h)
         = get_spent_calories c_pow
             (SportsWalking_obj (PyFloat fa) (PyFloat fd) (PyFloat fw)
                (PyFloat fh)))
  /\ (get_distance (Swimming_obj a d w l n)
      = get_distance
          (Swimming_obj (PyFloat fa) (PyFloat fd) (PyFloat fw) l n)
      /\ get_mean_speed (Swimming_obj a d w l n)
         = get_mean_speed
             (Swimming_obj (PyFloat fa) (PyFloat fd) (PyFloat fw) l n)
      /\ get_spent_calories c_pow (Swimming_obj a d w l n)
         = get_spent_calories c_pow
             (Swimming_obj (PyFloat fa) (PyFloat fd) (PyFloat fw) l n)).
Proof.
  intros Ea Ed Ew Eh.
  repeat split; unfold_methods;
    try (split_tests; reflexivity).
  all: destruct l as [zl|fl], n as [zn|fn]; simpl py_mul;
    unfold float_mul; split_tests; reflexivity.
Qed.

Lemma int_fields_as_floats_witness :
  get_spent_calories square_pow
    (SportsWalking_obj (PyInt 9000) (PyInt 1) (PyInt 75) (PyInt 180))
  = get_spent_calories square_pow
      (SportsWalking_obj (PyFloat 9000) (PyFloat 1) (PyFloat 75)
         (PyFloat 180)).
Proof.
  exact (proj2 (proj2 (proj1 (proj2
           (int_fields_as_floats square_pow
              (PyInt 9000) (PyInt 1) (PyInt 75) (PyInt 180)
              (PyInt 25) (PyInt 40) 9000 1 75 180
              eq_refl eq_refl eq_refl eq_refl))))).
Defined.

(** The pool fields are the exception: as ints they are multiplied
    exactly, as floats the product is rounded. *)
Example Swimming_pool_ints_are_exact :
  get_mean_speed
    (Swimming_obj (PyInt 720) (PyInt 1) (PyInt 80)
       (PyInt (2 ^ 53 + 1)) (PyInt 3))
  = Ok (PyFloat 27021597764222.98)
  /\ to_float (PyInt (2 ^ 53 + 1)) = Ok 9007199254740992%float
  /\ get_mean_speed
       (Swimming_obj (PyInt 720) (PyInt 1) (PyInt 80)
          (PyFloat 9007199254740992) (PyFloat 3))
     = Ok (PyFloat 27021597764222.977).
Proof. vm_compute. repeat split. Qed.

(** ** Beyond the claims: the rounding of [.3f] *)

Lemma round_half_even_nearest (n d : Z) :
  0 < d ->
  Z.abs (2 * n - 2 * round_half_even n d * d) <= d
  /\ (Z.abs (2 * n - 2 * round_half_even n d * d) < d
      \/ Z.even (round_half_even n d) = true).
Proof.
  intros Hd. unfold round_half_even.
  pose proof (Z.div_mod n d ltac:(lia)) as Hn.
  pose proof (Z.mod_pos_bound n d Hd) as Hr.
  set (q := n / d) in *. set (r := n mod d) in *.
  destruct (d <? 2 * r) eqn:H1; [apply Z.ltb_lt in H1|apply Z.ltb_ge in H1].
  - split; [lia|]. left. lia.
  - destruct (2 * r =? d) eqn:H2;
      [apply Z.eqb_eq in H2|apply Z.eqb_neq in H2].
    + destruct (Z.even q) eqn:Hq.
      * split; [lia|]. right. exact Hq.
      * split; [lia|]. right. rewrite Z.even_add, Hq. reflexivity.
    + split; [lia|]. left. lia.
Qed.

Lemma thousandths_nearest (m : positive) (e : Z) :
  0 <= thousandths m e
  /\ Z.abs (2 * (Z.pos m * 1000 * 2 ^ Z.max 0 e)
            - 2 * thousandths m e * 2 ^ Z.max 0 (- e))
     <= 2 ^ Z.max 0 (- e)
  /\ (Z.abs (2 * (Z.pos m * 1000 * 2 ^ Z.max 0 e)
             - 2 * thousandths m e * 2 ^ Z.max 0 (- e))
      < 2 ^ Z.max 0 (- e)
      \/ Z.even (thousandths m e) = true).
Proof.
  unfold thousandths.
  destruct (0 <=? e) eqn:He; [apply Z.leb_le in He|apply Z.leb_gt in He].
  - rewrite (Z.max_r 0 e) by lia. rewrite (Z.max_l 0 (- e)) by lia.
    change (2 ^ 0) with 1.
    assert (0 < 2 ^ e) by (apply Z.pow_pos_nonneg; lia).
    split; [nia|]. split; [lia|]. left. lia.
  - rewrite (Z.max_l 0 e) by lia. rewrite (Z.max_r 0 (- e)) by lia.
    change (2 ^ 0) with 1. rewrite Z.mul_1_r.
    assert (0 < 2 ^ (- e)) as Hd by (apply Z.pow_pos_nonneg; lia).
    destruct (round_half_even_nearest (Z.pos m * 1000) (2 ^ (- e)) Hd)
      as [Hn Ht].
    split; [|split; assumption].
    unfold round_half_even.
    assert (0 <= Z.pos m * 1000 / 2 ^ (- e))
      by (apply Z.div_pos; lia).
    repeat match goal with
           | |- context [if ?b then _ else _] => destruct b
           end; lia.
Qed.

Lemma digit_value_digit (d : Z) :
  0 <= d <= 9 -> digit_value (digit d) = d.
Proof.
  intros H.
  assert (d = 0 \/ d = 1 \/ d = 2 \/ d = 3 \/ d = 4 \/ d = 5 \/ d = 6
          \/ d = 7 \/ d = 8 \/ d = 9) as Hd by lia.
  repeat destruct Hd as [->|Hd]; try reflexivity. subst. reflexivity.
Qed.

Lemma integer_part_read (n : N) :
  NilZero.uint_of_string (NilZero.string_of_uint (N.to_uint n))
  = Some (N.to_uint n).
Proof.
  apply NilZero.usu. destruct n; [discriminate|].
  apply DecimalPos.Unsigned.to_uint_nonnil.
Qed.

Lemma thousandths_digits (q : Z) :
  0 <= q ->
  q / 1000 * 1000 + q / 100 mod 10 * 100 + q / 10 mod 10 * 10 + q mod 10
  = q.
Proof.
  intros Hq.
  pose proof (Z.div_mod q 10 ltac:(lia)).
  pose proof (Z.div_mod (q / 10) 10 ltac:(lia)).
  pose proof (Z.div_mod (q / 100) 10 ltac:(lia)).
  assert (q / 10 / 10 = q / 100) by (rewrite Z.div_div by lia; reflexivity).
  assert (q / 100 / 10 = q / 1000) by (rewrite Z.div_div by lia; reflexivity).
  lia.
Qed.

(** The rendering spells its number: read back, the text gives the sign
    and the thousandths it was made from. *)
Lemma read_render (neg : bool) (q : Z) :
  0 <= q -> read_fixed3 (render neg q) = Some (neg, q).
Proof.
  intros Hq. unfold render, read_fixed3.
  pose proof (integer_part_read (Z.to_N (q / 1000))) as Hread.
  destruct (integer_part_digits (N.to_uint (Z.to_N (q / 1000))))
    as (c & s & E & Hc & Hs).
  rewrite E in *.
  destruct (digit_not_point c Hc) as [Hpoint Hminus].
  assert (all_digits (String c s) = true) as Hcs
    by (simpl; rewrite Hc, Hs; reflexivity).
  set (frac := String (digit (q / 100 mod 10))
                 (String (digit (q / 10 mod 10))
                    (String (digit (q mod 10)) ""))).
  assert (unsigned ((if neg then "-" else "") ++ String c s
                    ++ String "." frac)%string
          = (String c s ++ String "." frac)%string) as Hu.
  { destruct neg; simpl; [reflexivity|]. rewrite Hminus. reflexivity. }
  rewrite Hu, (split_point_digits _ _ Hcs). unfold frac.
  rewrite Hread, DecimalN.Unsigned.of_to.
  rewrite !digit_value_digit
    by (pose proof (Z.mod_pos_bound (q / 100) 10 ltac:(lia));
        pose proof (Z.mod_pos_bound (q / 10) 10 ltac:(lia));
        pose proof (Z.mod_pos_bound q 10 ltac:(lia)); lia).
  rewrite Z2N.id by (apply Z.div_pos; lia).
  rewrite thousandths_digits by exact Hq.
  f_equal. f_equal. destruct neg; simpl; [reflexivity|exact Hminus].
Qed.

(** X13: the number shown is the nearest thousandth.  For a finite
    non-zero float of sign [s], mantissa [m] and exponent [e] (value
    [+/- m * 2^e]), the text that [.3f] gives reads back as the sign [s]
    and a number [q] of thousandths with [|1000 * m * 2^e - q| <= 1/2],
    [q] being even in the case of a tie: the digits printed are those of
    the half-even rounding of the exact binary value.  The inequalities
    are stated on integers, with [2^(-e)] as denominator when [e] is
    negative. *)
Theorem fixed3_nearest_thousandth (f : float) (s : bool) (m : positive)
  (e : Z) :
  Prim2SF f = S754_finite s m e ->
  exists q,
    read_fixed3 (fixed3 f) = Some (s, q)
    /\ 0 <= q
    /\ Z.abs (2 * (Z.pos m * 1000 * 2 ^ Z.max 0 e)
              - 2 * q * 2 ^ Z.max 0 (- e))
       <= 2 ^ Z.max 0 (- e)
    /\ (Z.abs (2 * (Z.pos m * 1000 * 2 ^ Z.max 0 e)
               - 2 * q * 2 ^ Z.max 0 (- e))
        < 2 ^ Z.max 0 (- e)
        \/ Z.even q = true).
Proof.
  intros H. exists (thousandths m e).
  destruct (thousandths_nearest m e) as (Hq & Hn & Ht).
  split; [|repeat split; assumption].
  unfold fixed3. rewrite H. apply read_render. exact Hq.
Qed.

Lemma fixed3_nearest_thousandth_witness :
  Prim2SF 0.0625 = S754_finite false 4503599627370496 (-56)
  /\ fixed3 0.0625 = "0.062"%string
  /\ exists q, read_fixed3 "0.062" = Some (false, q)
               /\ Z.abs (2 * (4503599627370496 * 1000 * 2 ^ Z.max 0 (-56))
                         - 2 * q * 2 ^ Z.max 0 (- -56))
                  <= 2 ^ Z.max 0 (- -56).
Proof.
  split; [reflexivity|]. split; [reflexivity|].
  destruct (fixed3_nearest_thousandth 0.0625 false 4503599627370496 (-56)
              eq_refl) as (q & Hr & _ & Hn & _).
  exists q. split; [exact Hr|exact Hn].
Defined.
